(** * timeoutd: a shallow embedding of the timeout decorator

    The development follows the Python sources:
    - [timeoutd/exceptions.py]  ([_raise_exception]),
    - [timeoutd/wrappers.py]    ([_signaler], [_exception_handler]),
    - [timeoutd/timeoutd.py]    ([_target] and the [_Timeout] class),
    - [timeoutd/timeout.py]     ([timeout] and its [decorate]).

    Python numbers (int and float seconds) are exact rationals; the process
    clock, the SIGALRM disposition and the real interval timer are fields of
    an explicit [world] that every callable threads through. *)

From Stdlib Require Import ZArith QArith Qround Lqa Lia List String Bool.
Import ListNotations.

Local Open Scope Q_scope.

(** ** Python values, classes and exceptions *)

(** The values that travel through arguments, results and exception
    arguments.  [VLocal] stands for an instance of a class defined inside a
    function body: such an object cannot be pickled. *)
Inductive pyval : Type :=
| VNone
| VNum (q : Q)
| VStr (s : string)
| VLocal (n : nat).

(** The classes that matter for [issubclass] and [except]. *)
Inductive pytype : Type :=
| TObject
| TInt
| TStr
| TBaseException
| TKeyboardInterrupt
| TException
| TTypeError
| TValueError
| TRuntimeError
| TStopIteration
| TOSError
| TTimeoutError
| TItimerError
| TUser (name : string) (base : pytype).

Fixpoint pytype_eqb (a b : pytype) : bool :=
  match a, b with
  | TObject, TObject | TInt, TInt | TStr, TStr
  | TBaseException, TBaseException
  | TKeyboardInterrupt, TKeyboardInterrupt
  | TException, TException | TTypeError, TTypeError
  | TValueError, TValueError | TRuntimeError, TRuntimeError
  | TStopIteration, TStopIteration | TOSError, TOSError
  | TTimeoutError, TTimeoutError | TItimerError, TItimerError => true
  | TUser n1 b1, TUser n2 b2 => String.eqb n1 n2 && pytype_eqb b1 b2
  | _, _ => false
  end.

(** Method resolution order (single inheritance). *)
Fixpoint mro (t : pytype) : list pytype :=
  match t with
  | TObject => [TObject]
  | TInt => [TInt; TObject]
  | TStr => [TStr; TObject]
  | TBaseException => [TBaseException; TObject]
  | TKeyboardInterrupt => [TKeyboardInterrupt; TBaseException; TObject]
  | TException => [TException; TBaseException; TObject]
  | TTypeError => [TTypeError; TException; TBaseException; TObject]
  | TValueError => [TValueError; TException; TBaseException; TObject]
  | TRuntimeError => [TRuntimeError; TException; TBaseException; TObject]
  | TStopIteration => [TStopIteration; TException; TBaseException; TObject]
  | TOSError => [TOSError; TException; TBaseException; TObject]
  | TTimeoutError =>
      [TTimeoutError; TOSError; TException; TBaseException; TObject]
  | TItimerError =>
      [TItimerError; TOSError; TException; TBaseException; TObject]
  | TUser n b => TUser n b :: mro b
  end.

Definition issubclass (c p : pytype) : bool := existsb (pytype_eqb p) (mro c).

(** An exception instance: its class and its constructor arguments. *)
Record exn : Type := Exn { exn_type : pytype; exn_args : list pyval }.

Definition isinstance (e : exn) (t : pytype) : bool :=
  issubclass (exn_type e) t.

(** Truth value of an object, as tested by [if x:]. *)
Definition truthy (v : pyval) : bool :=
  match v with
  | VNone => false
  | VNum q => negb (Qeq_bool q 0)
  | VStr s => negb (String.eqb s EmptyString)
  | VLocal _ => true
  end.

(** ** Keyword arguments *)

Definition kwargs : Type := list (string * pyval).

Fixpoint dict_get (k : string) (d : kwargs) : option pyval :=
  match d with
  | [] => None
  | (k', v) :: d' => if String.eqb k k' then Some v else dict_get k d'
  end.

Fixpoint dict_del (k : string) (d : kwargs) : kwargs :=
  match d with
  | [] => []
  | (k', v) :: d' =>
      if String.eqb k k' then dict_del k d' else (k', v) :: dict_del k d'
  end.

(** [d.pop(k, default)]: the value and the dictionary left. *)
Definition dict_pop (k : string) (default : pyval) (d : kwargs)
  : pyval * kwargs :=
  (match dict_get k d with Some v => v | None => default end, dict_del k d).

(** ** The process: clock, SIGALRM disposition, interval timer *)

(** What is installed for SIGALRM.  A Python-level handler is the closure
    [handler] of [_signaler]; it is determined by the exception class and
    message it closes over. *)
Inductive sighandler : Type :=
| SIG_DFL
| SIG_IGN
| PyHandler (exception_type : pytype) (exception_message : option string).

Record world : Type := World {
  clock : Q;                                (* time.time() *)
  sigalrm : sighandler;                     (* signal.getsignal(SIGALRM) *)
  itimer : option Q;     (* ITIMER_REAL: time left, [None] when disarmed *)
  calls : list (list pyval * kwargs)  (* arguments the wrapped function got *)
}.

Definition set_clock (t : Q) (w : world) : world :=
  {| clock := t; sigalrm := sigalrm w; itimer := itimer w; calls := calls w |}.
Definition set_sigalrm (h : sighandler) (w : world) : world :=
  {| clock := clock w; sigalrm := h; itimer := itimer w; calls := calls w |}.
Definition set_itimer (t : option Q) (w : world) : world :=
  {| clock := clock w; sigalrm := sigalrm w; itimer := t; calls := calls w |}.
Definition log_call (a : list pyval) (k : kwargs) (w : world) : world :=
  {| clock := clock w; sigalrm := sigalrm w; itimer := itimer w;
     calls := calls w ++ [(a, k)] |}.

(** ** Outcomes and the state-and-error monad *)

Inductive result (A : Type) : Type :=
| Returned (a : A)      (* normal return *)
| Raised (e : exn)      (* an exception propagates *)
| Killed                (* SIGALRM with the default disposition *)
| Unfinished.           (* the poll loop used up its fuel *)
Arguments Returned {A} a.
Arguments Raised {A} e.
Arguments Killed {A}.
Arguments Unfinished {A}.

Definition M (S A : Type) : Type := S -> result A * S.

Definition ret {S A} (a : A) : M S A := fun s => (Returned a, s).
Definition raise {S A} (e : exn) : M S A := fun s => (Raised e, s).
Definition bind {S A B} (m : M S A) (k : A -> M S B) : M S B :=
  fun s =>
    match m s with
    | (Returned a, s') => k a s'
    | (Raised e, s') => (Raised e, s')
    | (Killed, s') => (Killed, s')
    | (Unfinished, s') => (Unfinished, s')
    end.

Notation "x <- m ;; k" := (bind m (fun x => k))
  (at level 61, m at next level, right associativity).
Notation "m ;;; k" := (bind m (fun _ => k))
  (at level 61, right associativity).

(** [try: body finally: fin]. *)
Definition try_finally {S A} (body : M S A) (fin : M S unit) : M S A :=
  fun s =>
    match body s with
    | (Returned a, s') =>
        match fin s' with
        | (Returned _, s'') => (Returned a, s'')
        | (Raised e, s'') => (Raised e, s'')
        | (Killed, s'') => (Killed, s'')
        | (Unfinished, s'') => (Unfinished, s'')
        end
    | (Raised e, s') =>
        match fin s' with
        | (Returned _, s'') => (Raised e, s'')
        | (Raised e', s'') => (Raised e', s'')
        | (Killed, s'') => (Killed, s'')
        | (Unfinished, s'') => (Unfinished, s'')
        end
    | (Killed, s') => (Killed, s')
    | (Unfinished, s') => (Unfinished, s')
    end.

(** [try: body except ty: handler]. *)
Definition try_except {S A} (body : M S A) (ty : pytype) (handler : M S A)
  : M S A :=
  fun s =>
    match body s with
    | (Raised e, s') =>
        if isinstance e ty then handler s' else (Raised e, s')
    | other => other
    end.

(** ** exceptions.py *)

Definition _raise_exception {S A} (exception : pytype)
  (exception_message : option string) : M S A :=
  match exception_message with
  | None => raise (Exn exception [])
  | Some m => raise (Exn exception [VStr m])
  end.

(** ** Time and signals *)

Definition Qltb (x y : Q) : bool := negb (Qle_bool y x).

(** [d] seconds pass in the calling process.  If the interval timer runs
    out on the way, SIGALRM is delivered at that instant and what is
    installed for it decides: the Python handler raises, [SIG_IGN] lets
    the work go on, the default disposition ends the process. *)
Definition elapse (d : Q) : M world unit :=
  fun w =>
    match itimer w with
    | Some t =>
        if Qle_bool t d then
          match sigalrm w with
          | PyHandler ty msg =>
              _raise_exception ty msg
                (set_itimer None (set_clock (clock w + t) w))
          | SIG_IGN =>
              (Returned tt, set_itimer None (set_clock (clock w + d) w))
          | SIG_DFL => (Killed, set_itimer None (set_clock (clock w + t) w))
          end
        else
          (Returned tt,
           set_itimer (Some (t - d)) (set_clock (clock w + d) w))
    | None => (Returned tt, set_clock (clock w + d) w)
    end.

(** [signal.signal(signal.SIGALRM, h)]: installs [h], returns what was
    installed. *)
Definition signal_signal (h : sighandler) : M world sighandler :=
  fun w => (Returned (sigalrm w), set_sigalrm h w).

(** [signal.setitimer(signal.ITIMER_REAL, v)]: zero disarms, a positive
    number arms, a negative one is refused by the system call
    ([ItimerError]) and anything that is not a number is a [TypeError]. *)
Definition setitimer (v : pyval) : M world unit :=
  match v with
  | VNum q =>
      if Qltb q 0 then
        raise (Exn TItimerError [VNum (22 # 1); VStr "Invalid argument"])
      else if Qeq_bool q 0 then fun w => (Returned tt, set_itimer None w)
      else fun w => (Returned tt, set_itimer (Some q) w)
  | _ => raise (Exn TTypeError [VStr "a float is required"])
  end.

(** ** The wrapped function *)

(** One execution of the wrapped function: how long it takes and how it
    ends. *)
Inductive ending : Type :=
| Return_ (v : pyval)
| Raise_ (e : exn).

Record run : Type := Run { dur : Q; out : ending }.

(** A Python function, seen from outside: the run it makes given how many
    times it was invoked before and the arguments it receives. *)
Definition pyfun : Type := nat -> list pyval -> kwargs -> run.

(** What the decorator produces and composes. *)
Definition callable : Type := list pyval -> kwargs -> M world pyval.

(** A call of the wrapped function in the calling process. *)
Definition invoke (function : pyfun) : callable :=
  fun args kw w =>
    let r := function (List.length (calls w)) args kw in
    (elapse (dur r) ;;;
     match out r with
     | Return_ v => ret v
     | Raise_ e => raise e
     end) (log_call args kw w).

(** ** wrappers.py, signal strategy *)

Section Signal.
Variable function : pyfun.
Variable seconds : pyval.
Variable exception_type : pytype.
Variable exception_message : option string.

(** The closure [handler] of [_signaler]. *)
Definition handler : sighandler := PyHandler exception_type exception_message.

Definition new_function : callable :=
  fun args kwargs =>
    let (new_seconds, kwargs) := dict_pop "timeout" seconds kwargs in
    old_handler <-
      (if truthy new_seconds then
         old <- signal_signal handler ;;
         setitimer new_seconds ;;;
         ret (Some old)
       else ret None) ;;
    if negb (truthy seconds) then invoke function args kwargs
    else
      try_finally (invoke function args kwargs)
        (if truthy new_seconds then
           setitimer (VNum 0) ;;;
           (* reinstall the old signal handler *)
           match old_handler with
           | Some h => signal_signal h ;;; ret tt
           | None => ret tt
           end
         else ret tt).
End Signal.

(** ** timeoutd.py, worker strategy *)

(** What crosses the queue: the pair [(True, value)] or
    [(False, exception)]. *)
Inductive item : Type :=
| Success (load : pyval)
| Failure (load : exn).

Definition picklable (v : pyval) : bool :=
  match v with
  | VLocal _ => false
  | _ => true
  end.

(** [_target], given the run the function makes in the worker: the item
    that reaches the queue.  [except Exception] does not catch what only
    derives from [BaseException]; an object that cannot be pickled is
    dropped by the queue's feeder and never arrives. *)
Definition _target (r : run) : option item :=
  match out r with
  | Return_ v => if picklable v then Some (Success v) else None
  | Raise_ e =>
      if isinstance e TException && forallb picklable (exn_args e)
      then Some (Failure e) else None
  end.

(** A [multiprocessing.Process]: when it was started and on which run,
    and whether [terminate] reached it. *)
Record process : Type := Process {
  job : option (Q * run);
  terminated : bool
}.

Definition Process_new : process := {| job := None; terminated := false |}.

Definition is_alive (p : process) (now : Q) : bool :=
  match job p with
  | Some (t0, r) => negb (terminated p) && Qltb now (t0 + dur r)
  | None => false
  end.

Definition terminate (p : process) : process :=
  {| job := job p; terminated := true |}.

(** A [multiprocessing.Queue]; only the worker writes to it, so what it
    holds at an instant follows from the worker's run. *)
Record queue : Type := Queue { maxsize : nat; taken : bool }.

Definition queue_items (q : queue) (p : process) (now : Q) : list item :=
  if taken q then []
  else
    match job p with
    | Some (t0, r) =>
        if negb (terminated p) && Qle_bool (t0 + dur r) now then
          match _target r with
          | Some it => [it]
          | None => []
          end
        else []
    | None => []
    end.

Definition full (q : queue) (items : list item) : bool :=
  match maxsize q with
  | O => false
  | S _ => Nat.leb (maxsize q) (List.length items)
  end.

Definition empty (items : list item) : bool :=
  match items with
  | [] => true
  | _ => false
  end.

(** The attributes of a [_Timeout] instance. *)
Record _Timeout : Type := Build_Timeout {
  _limit : pyval;
  _function : pyfun;
  _exception_type : pytype;
  _exception_message : option string;
  _timeout : Q;
  _process : process;
  _queue : queue
}.

Definition set_limit (v : pyval) (self : _Timeout) : _Timeout :=
  {| _limit := v; _function := _function self;
     _exception_type := _exception_type self;
     _exception_message := _exception_message self;
     _timeout := _timeout self; _process := _process self;
     _queue := _queue self |}.
Definition set_timeout (t : Q) (self : _Timeout) : _Timeout :=
  {| _limit := _limit self; _function := _function self;
     _exception_type := _exception_type self;
     _exception_message := _exception_message self;
     _timeout := t; _process := _process self; _queue := _queue self |}.
Definition set_process (p : process) (self : _Timeout) : _Timeout :=
  {| _limit := _limit self; _function := _function self;
     _exception_type := _exception_type self;
     _exception_message := _exception_message self;
     _timeout := _timeout self; _process := p; _queue := _queue self |}.
Definition set_queue (q : queue) (self : _Timeout) : _Timeout :=
  {| _limit := _limit self; _function := _function self;
     _exception_type := _exception_type self;
     _exception_message := _exception_message self;
     _timeout := _timeout self; _process := _process self; _queue := q |}.

(** The body of [__init__].  The source's parameter list also has an
    [on_timeout], which the body never stores; [new_mt_function] passes
    the four keywords below. *)
Definition __init__ (function : pyfun) (exception_type : pytype)
  (exception_message : option string) (limit : pyval) : M world _Timeout :=
  fun w =>
    (Returned
       {| _limit := limit; _function := function;
          _exception_type := exception_type;
          _exception_message := exception_message;
          _timeout := clock w;
          _process := Process_new;
          _queue := {| maxsize := 0; taken := false |} |}, w).

(** Methods run on the instance and the process it lives in. *)
Definition self_world : Type := (_Timeout * world)%type.

Definition cancel : M self_world unit :=
  fun '(self, w) =>
    if is_alive (_process self) (clock w) then
      (Returned tt, (set_process (terminate (_process self)) self, w))
    else
      _raise_exception (_exception_type self) (_exception_message self)
        (self, w).

Definition ready : M self_world bool :=
  (fun '(self, w) =>
     if truthy (_limit self) && Qltb (_timeout self) (clock w)
     then cancel (self, w) else (Returned tt, (self, w))) ;;;
  (fun '(self, w) =>
     let items := queue_items (_queue self) (_process self) (clock w) in
     (Returned (full (_queue self) items && negb (empty items)), (self, w))).

(** [queue.get()] on a queue that holds an item. *)
Definition queue_get : M self_world item :=
  fun '(self, w) =>
    match queue_items (_queue self) (_process self) (clock w) with
    | it :: _ =>
        (Returned it,
         (set_queue {| maxsize := maxsize (_queue self); taken := true |} self,
          w))
    | [] => (Unfinished, (self, w))      (* blocks *)
    end.

Definition value : M self_world pyval :=
  r <- ready ;;
  if r then
    it <- queue_get ;;
    match it with
    | Success load => ret load
    | Failure load => raise load
    end
  else ret VNone.

(** [time.sleep(d)] in the parent. *)
Definition sleep (d : Q) : M self_world unit :=
  fun '(self, w) =>
    match elapse d w with
    | (r, w') => (r, (self, w'))
    end.

(** [while not self.ready: time.sleep(0.01)], with fuel. *)
Fixpoint poll (fuel : nat) : M self_world unit :=
  match fuel with
  | O => fun s => (Unfinished, s)
  | S n =>
      r <- ready ;;
      if r then ret tt else sleep (1 # 100) ;;; poll n
  end.

(** [limit + time.time()]. *)
Definition add_time (limit : pyval) (now : Q) : M self_world Q :=
  match limit with
  | VNum q => ret (q + now)
  | _ => raise (Exn TTypeError [VStr "unsupported operand type(s) for +"])
  end.

Definition is_None (v : pyval) : bool :=
  match v with
  | VNone => true
  | _ => false
  end.

Definition __call__ (fuel : nat) (args : list pyval) (kwargs : kwargs)
  : M self_world pyval :=
  fun '(self, w) =>
    let (limit, kwargs) := dict_pop "timeout" (_limit self) kwargs in
    let self := set_limit limit self in
    let self := set_queue {| maxsize := 1; taken := false |} self in
    (* process.start(): the worker begins its run now *)
    let r := _function self (List.length (calls w)) args kwargs in
    let self := set_process {| job := Some (clock w, r); terminated := false |}
                  self in
    let w := log_call args kwargs w in
    ((if negb (is_None (_limit self)) then
        fun '(self, w) =>
          (t <- add_time (_limit self) (clock w) ;;
           fun '(self, w) => (Returned tt, (set_timeout t self, w))) (self, w)
      else ret tt) ;;;
     poll fuel ;;;
     value) (self, w).

(** ** wrappers.py, [_signaler] *)

Section Signaler.
Variable fuel : nat.
Variable function : pyfun.
Variable seconds : pyval.
Variable use_signals : bool.
Variable exception_type : pytype.
Variable exception_message : option string.

Definition new_mt_function : callable :=
  fun args kwargs w =>
    match __init__ function exception_type exception_message seconds w with
    | (Returned timeout_wrapper, w1) =>
        match __call__ fuel args kwargs (timeout_wrapper, w1) with
        | (r, (_, w2)) => (r, w2)
        end
    | (Raised e, w1) => (Raised e, w1)
    | (Killed, w1) => (Killed, w1)
    | (Unfinished, w1) => (Unfinished, w1)
    end.

Definition _signaler : callable :=
  if use_signals
  then new_function function seconds exception_type exception_message
  else new_mt_function.
End Signaler.

(** ** wrappers.py, [_exception_handler] *)

Definition _exception_handler (function : callable) (on_timeout : callable)
  (exception_type : pytype) : callable :=
  fun args kwargs =>
    try_except (function args kwargs) exception_type (on_timeout [] []).

(** ** converters.py and handlers.py *)

(** The forms of the positional [limit]: plain seconds, an absolute
    [datetime] (as a timestamp) or a [timedelta] (as its total seconds). *)
Inductive limit_spec : Type :=
| LimitSeconds (s : Q)
| LimitDeadline (at_ : Q)
| LimitDuration (total_seconds : Q).

Definition or_zero (x : option Q) : Q :=
  match x with
  | Some q => q
  | None => 0
  end.

(** Modelled from the spec: [timeoutd/converters.py] is not among the
    sources, only its tests and its caller are.  A deadline contributes
    [deadline - now] at the moment of resolution, a number or a duration
    its seconds, and [seconds + minutes * 60 + hours * 3600] is always
    summed in; an absent input counts for nothing. *)
Definition time_to_seconds (now : Q) (limit : option limit_spec)
  (seconds minutes hours : option Q) : Q :=
  match limit with
  | None => 0
  | Some (LimitSeconds s) => s
  | Some (LimitDeadline d) => d - now
  | Some (LimitDuration s) => s
  end
  + (or_zero seconds + or_zero minutes * 60 + or_zero hours * 3600).

(** Modelled from the spec: [timeoutd/handlers.py] is not among the
    sources.  [timeout_handler] wraps the target with the executor chosen
    by the strategy flag, which is [_signaler] of wrappers.py. *)
Definition timeout_handler (fuel : nat) (function : pyfun) (seconds : pyval)
  (use_signals : bool) (exception_type : pytype)
  (exception_message : option string) : callable :=
  _signaler fuel function seconds use_signals exception_type exception_message.

Definition or_nil {A} (x : option (list A)) : list A :=
  match x with
  | Some l => l
  | None => []
  end.

(** Modelled from the spec: [timeoutd/handlers.py] is not among the
    sources.  [exception_handler] is the recovery stage: it catches only
    the configured error kind and then invokes the fallback with its
    configured positional and keyword arguments; the catching itself is
    [_exception_handler] of wrappers.py, which calls its fallback without
    arguments. *)
Definition exception_handler (function : callable) (on_timeout : callable)
  (exception_type : pytype) (on_timeout_args : option (list pyval))
  (on_timeout_kwargs : option kwargs) : callable :=
  _exception_handler function
    (fun _ _ => on_timeout (or_nil on_timeout_args) (or_nil on_timeout_kwargs))
    exception_type.

(** Modelled from the spec: [timeoutd/handlers.py] is not among the
    sources.  [retry_handler] is the retry stage: up to [retries + 1]
    attempts of the whole underlying call, an attempt that raises being
    retried only while attempts remain; the outcome of the final attempt
    is the result.  (It is given no error kind to tell errors apart.) *)
Fixpoint retry_handler (function : callable) (retries : nat) : callable :=
  fun args kwargs =>
    match retries with
    | O => function args kwargs
    | S n =>
        fun w =>
          match function args kwargs w with
          | (Raised _, w') => retry_handler function n args kwargs w'
          | other => other
          end
    end.

(** ** timeout.py *)

(** What may be passed for [retries]. *)
Inductive number : Type :=
| Int (z : Z)
| Bool_ (b : bool)
| Float (q : Q).

Definition number_Q (n : number) : Q :=
  match n with
  | Int z => inject_Z z
  | Bool_ b => if b then 1 else 0
  | Float q => q
  end.

(** [isinstance(n, int)]; [bool] is a subclass of [int]. *)
Definition is_int (n : number) : bool :=
  match n with
  | Int _ | Bool_ _ => true
  | Float _ => false
  end.

Definition number_count (n : number) : nat :=
  Z.to_nat (Qfloor (number_Q n)).

Section Timeout.
Variable fuel : nat.
Variable now : Q.          (* datetime.now() when the decorator is built *)

Section Decorate.
Variable seconds : Q.
Variable _retries : number.
Variable on_timeout : option callable.
Variable use_signals : bool.
Variable exception_type : pytype.
Variable exception_message : option string.
Variable on_timeout_args : option (list pyval).
Variable on_timeout_kwargs : option kwargs.

Definition decorate (function : pyfun) : callable :=
  let handled_timeout :=
    timeout_handler fuel function (VNum seconds) use_signals
      exception_type exception_message in
  if Qeq_bool (number_Q _retries) 0 then
    match on_timeout with
    | None => handled_timeout
    | Some on_timeout =>
        exception_handler handled_timeout on_timeout exception_type
          on_timeout_args on_timeout_kwargs
    end
  else
    match on_timeout with
    | None =>
        retry_handler
          (exception_handler handled_timeout handled_timeout
             exception_type on_timeout_args on_timeout_kwargs)
          (number_count _retries)
    | Some on_timeout =>
        retry_handler
          (exception_handler handled_timeout on_timeout
             exception_type on_timeout_args on_timeout_kwargs)
          (number_count _retries)
    end.
End Decorate.

(** The decorator factory: an error, or the decorator. *)
Definition timeout (limit : option limit_spec)
  (seconds minutes hours : option Q) (on_timeout : option callable)
  (retries : option number) (use_signals : bool) (exception_type : pytype)
  (exception_message : option string)
  (on_timeout_args : option (list pyval))
  (on_timeout_kwargs : option kwargs)
  : exn + (pyfun -> callable) :=
  if negb (issubclass exception_type TException) then
    inl (Exn TTypeError
           [VStr "exception_type must be a subclass of Exception"])
  else
    let seconds := time_to_seconds now limit seconds minutes hours in
    let _retries :=
      match retries with
      | Some r => r
      | None => Int 0
      end in
    if Qltb (number_Q _retries) 0 then
      inl (Exn TValueError
             [VStr "retries must be greater than or equal to 0"])
    else if negb (is_int _retries) then
      inl (Exn TTypeError [VStr "retries must be an integer"])
    else
      inr (decorate seconds _retries on_timeout use_signals exception_type
             exception_message on_timeout_args on_timeout_kwargs).
End Timeout.

(** ** timeoutd.py, the decorator the module defines itself *)

Module Timeoutd.

(** [_Timeout.__init__] with its parameter list as the class declares it:
    [function], [on_timeout], [exception_type], [exception_message] and
    [limit], none of them with a default.  An argument is [Some] when the
    call passes it; a call that leaves one out is a [TypeError]. *)
Definition __init__ (function : option pyfun)
  (on_timeout : option (option callable)) (exception_type : option pytype)
  (exception_message : option (option string)) (limit : option pyval)
  : M world _Timeout :=
  match function, on_timeout, exception_type, exception_message, limit with
  | Some f, Some _, Some ty, Some msg, Some l => __init__ f ty msg l
  | _, _, _, _, _ =>
      raise (Exn TTypeError
               [VStr "__init__() missing required positional argument"])
  end.

Definition new_mt_function (fuel : nat) (function : pyfun) (seconds : pyval)
  (exception_type : pytype) (exception_message : option string) : callable :=
  fun args kwargs w =>
    match
      __init__ (Some function) None (Some exception_type)
        (Some exception_message) (Some seconds) w
    with
    | (Returned timeout_wrapper, w1) =>
        match __call__ fuel args kwargs (timeout_wrapper, w1) with
        | (r, (_, w2)) => (r, w2)
        end
    | (Raised e, w1) => (Raised e, w1)
    | (Killed, w1) => (Killed, w1)
    | (Unfinished, w1) => (Unfinished, w1)
    end.

Definition decorate (fuel : nat) (seconds : pyval) (use_signals : bool)
  (exception_type : pytype) (exception_message : option string)
  (function : pyfun) : callable :=
  if use_signals
  then new_function function seconds exception_type exception_message
  else new_mt_function fuel function seconds exception_type exception_message.

Definition timeout (fuel : nat) (seconds : pyval) (use_signals : bool)
  (exception_type : pytype) (exception_message : option string)
  : exn + (pyfun -> callable) :=
  if negb (issubclass exception_type TException) then
    inl (Exn TTypeError
           [VStr "exception_type must be a subclass of Exception"])
  else
    inr (decorate fuel seconds use_signals exception_type exception_message).

End Timeoutd.

(** * Auxiliary definitions

    The terms the statements below are written with, and the functions and
    worlds of the examples. *)

Definition exception_type_error : exn :=
  Exn TTypeError [VStr "exception_type must be a subclass of Exception"].
Definition retries_negative_error : exn :=
  Exn TValueError [VStr "retries must be greater than or equal to 0"].
Definition retries_type_error : exn :=
  Exn TTypeError [VStr "retries must be an integer"].

(** The exception [_raise_exception] builds: the message as its only
    argument when there is one, no argument otherwise. *)
Definition configured_error (exception_type : pytype)
  (exception_message : option string) : exn :=
  match exception_message with
  | None => Exn exception_type []
  | Some m => Exn exception_type [VStr m]
  end.

Definition sample_worker (p : process) : _Timeout :=
  {| _limit := VNum (1 # 10); _function := fun _ _ _ => Run 2 (Return_ VNone);
     _exception_type := TTimeoutError; _exception_message := Some "late"%string;
     _timeout := 1 # 10; _process := p;
     _queue := {| maxsize := 1; taken := false |} |}.

Definition ending_result (o : ending) : result pyval :=
  match o with
  | Return_ v => Returned v
  | Raise_ e => Raised e
  end.

(** After the call the disposition and the timer are those the code
    leaves: put back when the decoration-time [seconds] is truthy, left as
    they are otherwise. *)
Definition after_call (seconds : pyval) (w x : world) : world :=
  if truthy seconds then set_sigalrm (sigalrm w) (set_itimer None x) else x.

(** The instance while a call is under way: the limit in force, the
    deadline, the worker started at [t0] on the run [r], and whether
    [terminate] reached it; the single-slot queue not yet read. *)
Definition worker_state (function : pyfun) (ety : pytype)
  (emsg : option string) (limit : pyval) (deadline t0 : Q) (r : run)
  (tm : bool) : _Timeout :=
  {| _limit := limit; _function := function; _exception_type := ety;
     _exception_message := emsg; _timeout := deadline;
     _process := {| job := Some (t0, r); terminated := tm |};
     _queue := {| maxsize := 1; taken := false |} |}.

(** [n] polls cover [n] hundredths of a second. *)
Definition polls (n : nat) : Q := inject_Z (Z.of_nat n) * (1 # 100).

Definition item_result (it : item) : result pyval :=
  match it with
  | Success load => Returned load
  | Failure load => Raised load
  end.

Definition fresh_world : world := World 0 SIG_DFL None [].

(** [time.sleep(2)], as in the tests. *)
Definition sleeps_two_seconds : pyfun := fun _ _ _ => Run 2 (Return_ VNone).

(** A function that returns, after a hundredth of a second, an instance of
    a class defined in its own body (test_timeout_pickle_error). *)
Definition returns_local_object : pyfun :=
  fun _ _ _ => Run (1 # 100) (Return_ (VLocal 0)).

(** [f(i, j) = i + j] called as [f(1, 2)] (test_timeout_with_args). *)
Definition adds_one_and_two : pyfun := fun _ _ _ => Run 0 (Return_ (VNum 3)).

(** [time.sleep(0.01)]. *)
Definition sleeps_briefly : pyfun := fun _ _ _ => Run (1 # 100) (Return_ VNone).

(** A function that takes 0.01 s at its first invocation and 0.5 s at the
    later ones. *)
Definition brief_then_long : pyfun :=
  fun n _ _ =>
    match n with
    | O => Run (1 # 100) (Return_ VNone)
    | S _ => Run (1 # 2) (Return_ VNone)
    end.

(** The fallback of test_timeout_custom_on_timeout_with_args_and_kwargs:
    [on_timeout(i, j=1)] returns [i + j]. *)
Definition on_timeout_sum : callable :=
  fun args kwargs =>
    match args, dict_get "j" kwargs with
    | [VNum i], Some (VNum j) => ret (VNum (i + j))
    | [VNum i], None => ret (VNum (i + 1))
    | _, _ => raise (Exn TTypeError [VStr "on_timeout() bad arguments"])
    end.

(** A function that raises [ValueError('boom')] at once. *)
Definition raises_value_error : pyfun :=
  fun _ _ _ => Run 0 (Raise_ (Exn TValueError [VStr "boom"])).


(** A function that is interrupted from the keyboard after 0.01 s. *)
Definition raises_keyboard_interrupt : pyfun :=
  fun _ _ _ => Run (1 # 100) (Raise_ (Exn TKeyboardInterrupt [])).

(** A function that returns 3 after 12 ms. *)
Definition returns_after_12ms : pyfun :=
  fun _ _ _ => Run (12 # 1000) (Return_ (VNum 3)).

(** The signal state a call may leave changed. *)
Definition same_signals (w w' : world) : Prop :=
  sigalrm w' = sigalrm w /\ (itimer w = None -> itimer w' = None).

(** * Properties *)

(** ** Comparisons on rationals *)

Lemma Qltb_true (x y : Q) : Qltb x y = true <-> x < y.
Proof.
  unfold Qltb. rewrite negb_true_iff.
  destruct (Qle_bool y x) eqn:E.
  - apply Qle_bool_iff in E. split; [discriminate | intros H; exfalso; lra].
  - split; [intros _ | reflexivity].
    destruct (Qlt_le_dec x y) as [L | L]; [assumption |].
    apply Qle_bool_iff in L. congruence.
Qed.

Lemma Qltb_false (x y : Q) : Qltb x y = false <-> y <= x.
Proof.
  unfold Qltb. rewrite negb_false_iff. apply Qle_bool_iff.
Qed.

Lemma Qle_bool_false (x y : Q) : Qle_bool x y = false <-> y < x.
Proof.
  rewrite <- Qltb_true. unfold Qltb. rewrite negb_true_iff. reflexivity.
Qed.

Lemma Qeq_bool_false (x y : Q) : Qeq_bool x y = false <-> ~ x == y.
Proof.
  split.
  - intros E H. apply Qeq_bool_iff in H. congruence.
  - intros H. destruct (Qeq_bool x y) eqn:E; [| reflexivity].
    apply Qeq_bool_iff in E. contradiction.
Qed.

(** ** Time-limit resolution *)

(** The cases of converters' tests (test_converters.py), on the model. *)
Example test_converters_time_to_seconds_no_input :
  time_to_seconds 0 None None None None == 0.
Proof. reflexivity. Qed.

Example test_converters_time_to_seconds_only_limit_datetime :
  time_to_seconds 1000 (Some (LimitDeadline (1000 + 1))) None None None == 1.
Proof. reflexivity. Qed.

Example test_converters_time_to_seconds_only_limit_timedelta :
  time_to_seconds 0 (Some (LimitDuration (712 # 100))) None None None
  == 712 # 100.
Proof. reflexivity. Qed.

Example test_converters_time_to_seconds_seconds_and_hours :
  time_to_seconds 0 None (Some (114 # 10)) None (Some (3125 # 1000))
  == (114 # 10) + (75 # 10) * 60 + 3 * 60 * 60.
Proof. reflexivity. Qed.

Example test_converters_time_to_seconds_minutes_and_hours :
  time_to_seconds 0 None None (Some (325 # 100)) (Some (175 # 100))
  == 15 + 3 * 60 + 45 * 60 + 1 * 60 * 60.
Proof. reflexivity. Qed.


(** ** Validation at decoration time *)

Section Validation.
Variables (fuel : nat) (now : Q).
Variables (limit : option limit_spec) (seconds minutes hours : option Q).
Variables (on_timeout : option callable) (use_signals : bool).
Variables (exception_type : pytype) (exception_message : option string).
Variables (on_timeout_args : option (list pyval)).
Variables (on_timeout_kwargs : option kwargs).

Let decorator (retries : option number) :=
  timeout fuel now limit seconds minutes hours on_timeout retries
    use_signals exception_type exception_message on_timeout_args
    on_timeout_kwargs.

Lemma timeout_bad_exception_type (retries : option number) :
  issubclass exception_type TException = false ->
  decorator retries = inl exception_type_error.
Proof.
  intros H. unfold decorator, timeout. rewrite H. reflexivity.
Qed.

Lemma timeout_negative_retries (r : number) :
  issubclass exception_type TException = true ->
  number_Q r < 0 ->
  decorator (Some r) = inl retries_negative_error.
Proof.
  intros H L. unfold decorator, timeout. rewrite H. simpl.
  apply Qltb_true in L. rewrite L. reflexivity.
Qed.

Lemma timeout_fraction_retries (r : number) :
  issubclass exception_type TException = true ->
  0 <= number_Q r ->
  is_int r = false ->
  decorator (Some r) = inl retries_type_error.
Proof.
  intros H L I. unfold decorator, timeout. rewrite H. simpl.
  apply Qltb_false in L. rewrite L, I. reflexivity.
Qed.

Lemma timeout_valid (retries : option number) :
  issubclass exception_type TException = true ->
  match retries with
  | Some r => 0 <= number_Q r /\ is_int r = true
  | None => True
  end ->
  decorator retries
  = inr (decorate fuel (time_to_seconds now limit seconds minutes hours)
           (match retries with Some r => r | None => Int 0 end)
           on_timeout use_signals exception_type exception_message
           on_timeout_args on_timeout_kwargs).
Proof.
  intros H V. unfold decorator, timeout. rewrite H. simpl.
  destruct retries as [r |].
  - destruct V as [L I]. apply Qltb_false in L. rewrite L, I. reflexivity.
  - reflexivity.
Qed.

Lemma timeout_type_error_only_if (r : number) :
  decorator (Some r) = inl retries_type_error ->
  is_int r = false /\ 0 <= number_Q r.
Proof.
  unfold decorator, timeout.
  destruct (issubclass exception_type TException); simpl.
  - destruct (Qltb (number_Q r) 0) eqn:L; [discriminate |].
    destruct (is_int r) eqn:I; simpl; [discriminate |].
    intros _. apply Qltb_false in L. auto.
  - discriminate.
Qed.
End Validation.

(** The three validation tests of test_timeoutd.py. *)
Example test_timeout_non_exception_types_raise_exception :
  timeout 0 0 None (Some (1 # 10)) None None None None true TInt None None None
  = inl exception_type_error.
Proof. reflexivity. Qed.

Example test_timeout_negative_retries_raise_exception :
  timeout 0 0 None (Some (1 # 10)) None None None (Some (Int (-1))) true
    TTimeoutError None None None
  = inl retries_negative_error.
Proof. reflexivity. Qed.

Example test_timeout_non_int_retries_raise_exception :
  timeout 0 0 None (Some (1 # 10)) None None None (Some (Float (11 # 10))) true
    TTimeoutError None None None
  = inl retries_type_error.
Proof. reflexivity. Qed.

(** C8, as stated, fails: [retries = -1.5] is not an integer, yet
    decoration raises the [ValueError] of the non-negativity check and not
    [TypeError('retries must be an integer')]. *)
Lemma timeout_fraction_retries_counterexample :
  is_int (Float (-3 # 2)) = false
  /\ timeout 0 0 None (Some (1 # 10)) None None None (Some (Float (-3 # 2)))
       true TTimeoutError None None None
     = inl retries_negative_error
  /\ timeout 0 0 None (Some (1 # 10)) None None None (Some (Float (-3 # 2)))
       true TTimeoutError None None None
     <> inl retries_type_error.
Proof.
  split; [reflexivity |]. split; [reflexivity |].
  intros H. vm_compute in H. discriminate H.
Qed.

(** C8 (amended).  Validation happens when the decorator is built, before
    any call, in this order: an [exception_type] that is not a subclass of
    [Exception] raises [TypeError('exception_type must be a subclass of
    Exception')]; otherwise a negative [retries] raises
    [ValueError('retries must be greater than or equal to 0')]; otherwise a
    [retries] that is not an integer raises [TypeError('retries must be an
    integer')]; otherwise no error is raised and the decorator is
    returned. *)
Theorem timeout_validation :
  forall fuel now limit seconds minutes hours on_timeout retries use_signals
         exception_type exception_message on_timeout_args on_timeout_kwargs,
    let built :=
      timeout fuel now limit seconds minutes hours on_timeout retries
        use_signals exception_type exception_message on_timeout_args
        on_timeout_kwargs in
    let _retries := match retries with Some r => r | None => Int 0 end in
    (issubclass exception_type TException = false ->
     built = inl exception_type_error)
    /\ (issubclass exception_type TException = true ->
        (number_Q _retries < 0 -> built = inl retries_negative_error)
        /\ (0 <= number_Q _retries -> is_int _retries = false ->
            built = inl retries_type_error)
        /\ (0 <= number_Q _retries -> is_int _retries = true ->
            built
            = inr (decorate fuel
                     (time_to_seconds now limit seconds minutes hours)
                     _retries on_timeout use_signals exception_type
                     exception_message on_timeout_args on_timeout_kwargs))).
Proof.
  intros. subst built _retries. split.
  - apply timeout_bad_exception_type.
  - intros V. destruct retries as [r |]; repeat split; intros.
    + now apply timeout_negative_retries.
    + now apply timeout_fraction_retries.
    + now rewrite (timeout_valid fuel now limit seconds minutes hours
                     on_timeout use_signals exception_type exception_message
                     on_timeout_args on_timeout_kwargs (Some r) V).
    + match goal with H : _ < _ |- _ => compute in H; discriminate H end.
    + discriminate.
    + now rewrite (timeout_valid fuel now limit seconds minutes hours
                     on_timeout use_signals exception_type exception_message
                     on_timeout_args on_timeout_kwargs None V).
Qed.

Lemma timeout_validation_witness :
  timeout 0 0 None (Some (1 # 10)) None None None (Some (Int (-1))) true
    TTimeoutError None None None
  = inl retries_negative_error
  /\ timeout 0 0 None (Some (1 # 10)) None None None (Some (Float (11 # 10)))
       true TTimeoutError None None None
     = inl retries_type_error
  /\ timeout 0 0 None (Some (1 # 10)) None None None None true TInt None None
       None
     = inl exception_type_error.
Proof.
  split; [| split].
  - apply (proj2 (timeout_validation 0 0 None (Some (1 # 10)) None None None
                    (Some (Int (-1))) true TTimeoutError None None None)
             eq_refl).
    reflexivity.
  - apply (proj2 (timeout_validation 0 0 None (Some (1 # 10)) None None None
                    (Some (Float (11 # 10))) true TTimeoutError None None None)
             eq_refl).
    + discriminate.
    + reflexivity.
  - apply (proj1 (timeout_validation 0 0 None (Some (1 # 10)) None None None
                    None true TInt None None None)).
    reflexivity.
Defined.

(** C10.  With a valid [exception_type], a [retries] that is both negative
    and not an integer raises the [ValueError] of the non-negativity check,
    not the [TypeError]: that check comes first, so
    [TypeError('retries must be an integer')] is raised only for a
    [retries] that is not an integer and is at least 0. *)
Theorem timeout_negative_fraction_retries :
  forall fuel now limit seconds minutes hours on_timeout (r : number)
         use_signals exception_type exception_message on_timeout_args
         on_timeout_kwargs,
    let built :=
      timeout fuel now limit seconds minutes hours on_timeout (Some r)
        use_signals exception_type exception_message on_timeout_args
        on_timeout_kwargs in
    issubclass exception_type TException = true ->
    (is_int r = false -> number_Q r < 0 ->
     built = inl retries_negative_error /\ built <> inl retries_type_error)
    /\ (built = inl retries_type_error -> is_int r = false /\ 0 <= number_Q r).
Proof.
  intros. subst built. split.
  - intros _ L.
    rewrite (timeout_negative_retries fuel now limit seconds minutes hours
               on_timeout use_signals exception_type exception_message
               on_timeout_args on_timeout_kwargs r H L).
    split; [reflexivity | discriminate].
  - apply timeout_type_error_only_if.
Qed.

Lemma timeout_negative_fraction_retries_witness :
  timeout 0 0 None (Some (1 # 10)) None None None (Some (Float (-3 # 2))) true
    TTimeoutError None None None
  = inl retries_negative_error.
Proof.
  apply (proj1 (timeout_negative_fraction_retries 0 0 None (Some (1 # 10)) None
                  None None (Float (-3 # 2)) true TTimeoutError None None None
                  eq_refl)).
  - reflexivity.
  - reflexivity.
Defined.

(** ** The configured error *)

Lemma _raise_exception_spec {S A} ty msg (s : S) :
  @_raise_exception S A ty msg s = (Raised (configured_error ty msg), s).
Proof. destruct msg; reflexivity. Qed.

(** ** [_Timeout.cancel] *)

Lemma is_alive_terminate (p : process) (now : Q) :
  is_alive (terminate p) now = false.
Proof.
  unfold is_alive, terminate; simpl.
  destruct (job p) as [[? ?] |]; reflexivity.
Qed.

Lemma cancel_alive (self : _Timeout) (w : world) :
  is_alive (_process self) (clock w) = true ->
  cancel (self, w)
  = (Returned tt, (set_process (terminate (_process self)) self, w)).
Proof. intros H. unfold cancel. rewrite H. reflexivity. Qed.

Lemma cancel_not_alive (self : _Timeout) (w : world) :
  is_alive (_process self) (clock w) = false ->
  cancel (self, w)
  = (Raised (configured_error (_exception_type self) (_exception_message self)),
     (self, w)).
Proof. intros H. unfold cancel. rewrite H. apply _raise_exception_spec. Qed.

(** C7.  [cancel] terminates the worker exactly when the worker is alive,
    and then raises nothing; when the worker is not alive (it never
    started, or it has exited) [cancel] leaves it as it is and raises the
    configured error with the configured message.  Nothing but the
    worker's liveness decides the branch. *)
Theorem cancel_by_liveness :
  forall (self : _Timeout) (w : world),
    let error :=
      configured_error (_exception_type self) (_exception_message self) in
    (is_alive (_process self) (clock w) = true <->
     cancel (self, w)
     = (Returned tt, (set_process (terminate (_process self)) self, w)))
    /\ (is_alive (_process self) (clock w) = false <->
        cancel (self, w) = (Raised error, (self, w)))
    /\ (forall now, is_alive (terminate (_process self)) now = false)
    /\ (job (_process self) = None ->
        cancel (self, w) = (Raised error, (self, w)))
    /\ (forall t0 r,
           job (_process self) = Some (t0, r) -> t0 + dur r <= clock w ->
           cancel (self, w) = (Raised error, (self, w))).
Proof.
  intros self w error. subst error.
  destruct (is_alive (_process self) (clock w)) eqn:A.
  - rewrite (cancel_alive _ _ A).
    split; [tauto |]. split; [split; intros H; discriminate H |].
    split; [apply is_alive_terminate |].
    unfold is_alive in A. split.
    + intros J. rewrite J in A. discriminate.
    + intros t0 r J L. rewrite J in A.
      apply andb_true_iff in A. destruct A as [_ A].
      apply Qltb_true in A. lra.
  - rewrite (cancel_not_alive _ _ A).
    split; [split; intros H; discriminate H |]. split; [tauto |].
    split; [apply is_alive_terminate |]. split; reflexivity.
Qed.

Lemma cancel_by_liveness_witness :
  (exists self',
      cancel (sample_worker (Process (Some (0, Run 2 (Return_ VNone))) false),
              World (1 # 5) SIG_DFL None [])
      = (Returned tt, (self', World (1 # 5) SIG_DFL None []))
      /\ terminated (_process self') = true)
  /\ cancel (sample_worker Process_new, World (1 # 5) SIG_DFL None [])
     = (Raised (Exn TTimeoutError [VStr "late"]),
        (sample_worker Process_new, World (1 # 5) SIG_DFL None [])).
Proof.
  split.
  - eexists. split.
    + apply (proj1 (proj1 (cancel_by_liveness
               (sample_worker (Process (Some (0, Run 2 (Return_ VNone))) false))
               (World (1 # 5) SIG_DFL None [])))).
      reflexivity.
    + reflexivity.
  - apply (proj1 (proj2 (proj2 (proj2 (cancel_by_liveness
             (sample_worker Process_new) (World (1 # 5) SIG_DFL None [])))))).
    reflexivity.
Defined.

(** ** The signal strategy *)

Lemma try_finally_ret {S A} (body : M S A) (s : S) :
  try_finally body (ret tt) s = body s.
Proof.
  unfold try_finally, ret.
  destruct (body s) as [[a | e | |] s']; reflexivity.
Qed.

Lemma truthy_positive (b : Q) : 0 < b -> truthy (VNum b) = true.
Proof.
  intros H. simpl. apply negb_true_iff, Qeq_bool_false. lra.
Qed.

Lemma setitimer_positive (b : Q) (w : world) :
  0 < b -> setitimer (VNum b) w = (Returned tt, set_itimer (Some b) w).
Proof.
  intros H. unfold setitimer.
  replace (Qltb b 0) with false by (symmetry; apply Qltb_false; lra).
  replace (Qeq_bool b 0) with false by (symmetry; apply Qeq_bool_false; lra).
  reflexivity.
Qed.

(** The wrapped function called while no timer is pending. *)
Lemma invoke_unarmed (function : pyfun) args kw (w : world) :
  itimer w = None ->
  invoke function args kw w
  = (ending_result (out (function (List.length (calls w)) args kw)),
     set_clock (clock w + dur (function (List.length (calls w)) args kw))
       (log_call args kw w)).
Proof.
  intros H. unfold invoke, bind, elapse. simpl. rewrite H.
  destruct (out _); reflexivity.
Qed.

(** The wrapped function called while [t] seconds are left on the timer
    and the closure [handler] is installed. *)
Lemma invoke_armed (function : pyfun) args kw (w : world) t ty msg :
  itimer w = Some t -> sigalrm w = PyHandler ty msg ->
  invoke function args kw w
  = let r := function (List.length (calls w)) args kw in
    let wl := log_call args kw w in
    if Qle_bool t (dur r) then
      (Raised (configured_error ty msg),
       set_itimer None (set_clock (clock w + t) wl))
    else
      (ending_result (out r),
       set_itimer (Some (t - dur r)) (set_clock (clock w + dur r) wl)).
Proof.
  intros H S. unfold invoke, bind, elapse. simpl. rewrite H, S.
  destruct (Qle_bool t _).
  - rewrite _raise_exception_spec. reflexivity.
  - destruct (out _); reflexivity.
Qed.

Section SignalFacts.
Variables (function : pyfun) (seconds : pyval).
Variables (ety : pytype) (emsg : option string).
Variables (args : list pyval) (kwargs : kwargs) (w : world).

(** A falsy effective bound arms nothing: the call is the function's. *)
Lemma new_function_unarmed :
  truthy (fst (dict_pop "timeout" seconds kwargs)) = false ->
  new_function function seconds ety emsg args kwargs w
  = invoke function args (dict_del "timeout" kwargs) w.
Proof.
  intros H. unfold new_function, dict_pop in *. simpl in H.
  rewrite H. unfold bind at 1. unfold ret at 1.
  destruct (negb (truthy seconds)); [reflexivity |].
  apply try_finally_ret.
Qed.

(** A positive effective bound [b]: the handler is installed, the timer
    armed with [b], and the function runs against it. *)
Lemma new_function_armed (b : Q) :
  fst (dict_pop "timeout" seconds kwargs) = VNum b -> 0 < b ->
  new_function function seconds ety emsg args kwargs w
  = let kw := dict_del "timeout" kwargs in
    let r := function (List.length (calls w)) args kw in
    let wl := log_call args kw (set_sigalrm (handler ety emsg) w) in
    if Qle_bool b (dur r) then
      (Raised (configured_error ety emsg),
       after_call seconds w (set_itimer None (set_clock (clock w + b) wl)))
    else
      (ending_result (out r),
       after_call seconds w
         (set_itimer (Some (b - dur r)) (set_clock (clock w + dur r) wl))).
Proof.
  intros H P. unfold new_function, dict_pop in *. simpl in H.
  rewrite H, (truthy_positive b P).
  unfold bind at 1. unfold bind at 1. unfold signal_signal at 1.
  unfold bind at 1. rewrite (setitimer_positive b _ P).
  unfold ret at 1.
  set (w2 := set_itimer (Some b) (set_sigalrm (handler ety emsg) w)).
  pose proof (invoke_armed function args (dict_del "timeout" kwargs) w2 b
                ety emsg eq_refl eq_refl) as I.
  unfold after_call.
  destruct (truthy seconds); cbn [negb].
  - unfold try_finally. rewrite I. cbv zeta.
    change (List.length (calls w2)) with (List.length (calls w)).
    destruct (Qle_bool b _).
    + reflexivity.
    + destruct (out _); reflexivity.
  - rewrite I. cbv zeta.
    change (List.length (calls w2)) with (List.length (calls w)).
    destruct (Qle_bool b _); reflexivity.
Qed.
End SignalFacts.

(** ** The worker strategy: one poll *)

Lemma sleep_unarmed (d : Q) (self : _Timeout) (w : world) :
  itimer w = None ->
  sleep d (self, w) = (Returned tt, (self, set_clock (clock w + d) w)).
Proof. intros H. unfold sleep, elapse. rewrite H. reflexivity. Qed.

Section OnePoll.
Variables (function : pyfun) (ety : pytype) (emsg : option string).
Variables (limit : pyval) (deadline t0 : Q) (r : run).

Let ws := worker_state function ety emsg limit deadline t0 r.

(** No deadline in force or not yet passed, nothing on the queue. *)
Lemma ready_unpublished (tm : bool) (w : world) :
  truthy limit && Qltb deadline (clock w) = false ->
  tm = true \/ clock w < t0 + dur r \/ _target r = None ->
  ready (ws tm, w) = (Returned false, (ws tm, w)).
Proof.
  intros C U. unfold ready, bind, ws, worker_state. simpl. rewrite C.
  unfold queue_items. simpl.
  destruct U as [U | [U | U]].
  - rewrite U. reflexivity.
  - apply Qle_bool_false in U. rewrite U, andb_false_r. reflexivity.
  - rewrite U. destruct (negb tm && _); reflexivity.
Qed.

(** No deadline in force or not yet passed, the item on the queue. *)
Lemma ready_published (it : item) (w : world) :
  truthy limit && Qltb deadline (clock w) = false ->
  t0 + dur r <= clock w -> _target r = Some it ->
  ready (ws false, w) = (Returned true, (ws false, w)).
Proof.
  intros C P T. unfold ready, bind, ws, worker_state. simpl. rewrite C.
  unfold queue_items. simpl.
  apply Qle_bool_iff in P. rewrite P, T. reflexivity.
Qed.

(** Deadline passed, worker alive: it is terminated, nothing raised. *)
Lemma ready_cancel_alive (w : world) :
  truthy limit = true -> deadline < clock w -> clock w < t0 + dur r ->
  ready (ws false, w) = (Returned false, (ws true, w)).
Proof.
  intros L D A. unfold ready, bind, ws, worker_state. simpl.
  apply Qltb_true in D. rewrite L, D. simpl.
  unfold cancel, is_alive. simpl.
  apply Qltb_true in A. rewrite A. reflexivity.
Qed.

(** Deadline passed, worker not alive: the configured error. *)
Lemma ready_cancel_dead (tm : bool) (w : world) :
  truthy limit = true -> deadline < clock w ->
  tm = true \/ t0 + dur r <= clock w ->
  ready (ws tm, w) = (Raised (configured_error ety emsg), (ws tm, w)).
Proof.
  intros L D A. unfold ready, bind, ws, worker_state. simpl.
  apply Qltb_true in D. rewrite L, D. simpl.
  unfold cancel, is_alive. simpl.
  replace (negb tm && Qltb (clock w) (t0 + dur r)) with false.
  - rewrite _raise_exception_spec. reflexivity.
  - destruct A as [A | A].
    + rewrite A. reflexivity.
    + apply Qltb_false in A. rewrite A, andb_false_r. reflexivity.
Qed.

(** [value] once the item is there and no deadline has passed. *)
Lemma value_published (it : item) (w : world) :
  truthy limit && Qltb deadline (clock w) = false ->
  t0 + dur r <= clock w -> _target r = Some it ->
  fst (value (ws false, w))
  = match it with
    | Success load => Returned load
    | Failure load => Raised load
    end.
Proof.
  intros C P T. unfold value, bind at 1.
  rewrite (ready_published it w C P T).
  unfold bind, queue_get, queue_items, ws, worker_state. simpl.
  apply Qle_bool_iff in P. rewrite P, T.
  destruct it; reflexivity.
Qed.
End OnePoll.

(** ** The worker strategy: the poll loop *)

Lemma polls_succ (n : nat) : polls (S n) == polls n + (1 # 100).
Proof.
  unfold polls. rewrite Nat2Z.inj_succ. unfold Z.succ.
  rewrite inject_Z_plus. ring.
Qed.

Lemma polls_cover (x : Q) : exists n : nat, x < polls n.
Proof.
  exists (Z.to_nat (Qfloor (x * 100) + 1)). unfold polls.
  pose proof (Qlt_floor (x * 100)) as F.
  assert (inject_Z (Qfloor (x * 100) + 1)
          <= inject_Z (Z.of_nat (Z.to_nat (Qfloor (x * 100) + 1)))) as I
      by (rewrite <- Zle_Qle; lia).
  lra.
Qed.

Section PollLoop.
Variables (function : pyfun) (ety : pytype) (emsg : option string).
Variables (limit : pyval) (deadline t0 : Q) (r : run).

Let ws := worker_state function ety emsg limit deadline t0 r.

(** Once the deadline has passed, at most two polls raise the error:
    the first terminates a worker that is still alive, the next finds it
    not alive. *)
Lemma poll_after_deadline (tm : bool) (w : world) (fuel : nat) :
  truthy limit = true -> itimer w = None -> deadline < clock w ->
  (2 <= fuel)%nat ->
  fst (poll fuel (ws tm, w)) = Raised (configured_error ety emsg).
Proof.
  intros L I D F.
  destruct fuel as [| [| fuel]]; [lia | lia |].
  destruct tm.
  - cbn [poll]. unfold bind at 1.
    unfold ws. rewrite ready_cancel_dead; auto.
  - destruct (Qlt_le_dec (clock w) (t0 + dur r)) as [A | A].
    + cbn [poll]. unfold bind at 1.
      unfold ws. rewrite ready_cancel_alive by assumption.
      unfold bind at 1. rewrite (sleep_unarmed _ _ _ I).
      unfold bind at 1. rewrite ready_cancel_dead; auto.
      simpl. lra.
    + cbn [poll]. unfold bind at 1.
      unfold ws. rewrite ready_cancel_dead; auto.
Qed.

(** A call whose result does not reach the queue before the deadline
    raises the configured error, given fuel for the polls up to the
    deadline and two more. *)
Lemma poll_times_out (n : nat) :
  forall (tm : bool) (w : world) (fuel : nat),
    truthy limit = true -> itimer w = None ->
    tm = true \/ deadline < t0 + dur r \/ _target r = None ->
    deadline < clock w + polls n ->
    (n + 2 <= fuel)%nat ->
    fst (poll fuel (ws tm, w)) = Raised (configured_error ety emsg).
Proof.
  induction n as [| n IH]; intros tm w fuel L I U D F.
  - apply poll_after_deadline; auto.
    assert (polls 0 == 0) as Z0 by reflexivity. lra.
  - destruct (Qlt_le_dec deadline (clock w)) as [P | P].
    + apply poll_after_deadline; auto. lia.
    + destruct fuel as [| fuel]; [lia |].
      cbn [poll]. unfold bind at 1.
      unfold ws. rewrite ready_unpublished.
      * unfold bind at 1. rewrite (sleep_unarmed _ _ _ I).
        apply IH; auto.
        -- rewrite polls_succ in D. simpl. lra.
        -- lia.
      * apply Qltb_false in P. rewrite P. apply andb_false_r.
      * destruct U as [U | [U | U]]; auto.
        right. left. lra.
Qed.

(** A call whose item reaches the queue, with a poll falling between
    that instant and the deadline, leaves the loop with the item
    there. *)
Lemma poll_publishes (it : item) (n : nat) :
  forall (w : world) (fuel : nat),
    itimer w = None -> _target r = Some it ->
    truthy limit = false \/ t0 + dur r + (1 # 100) <= deadline ->
    clock w < t0 + dur r + (1 # 100) ->
    t0 + dur r <= clock w + polls n ->
    (n + 1 <= fuel)%nat ->
    exists w',
      poll fuel (ws false, w) = (Returned tt, (ws false, w'))
      /\ itimer w' = None
      /\ t0 + dur r <= clock w' /\ clock w' < t0 + dur r + (1 # 100).
Proof.
  induction n as [| n IH]; intros w fuel I T C B P F;
    (destruct fuel as [| fuel]; [lia |]).
  - exists w. assert (polls 0 == 0) as Z0 by reflexivity.
    cbn [poll]. unfold bind at 1. unfold ws.
    rewrite (ready_published _ _ _ _ _ _ _ it).
    + repeat split; auto. lra.
    + destruct C as [C | C]; [rewrite C; reflexivity |].
      replace (Qltb deadline (clock w)) with false
        by (symmetry; apply Qltb_false; lra).
      apply andb_false_r.
    + lra.
    + assumption.
  - assert (truthy limit && Qltb deadline (clock w) = false) as NC.
    { destruct C as [C | C]; [rewrite C; reflexivity |].
      replace (Qltb deadline (clock w)) with false
        by (symmetry; apply Qltb_false; lra).
      apply andb_false_r. }
    destruct (Qlt_le_dec (clock w) (t0 + dur r)) as [A | A].
    + cbn [poll]. unfold bind at 1. unfold ws.
      rewrite ready_unpublished by auto.
      unfold bind at 1. rewrite (sleep_unarmed _ _ _ I).
      apply IH; auto.
      * simpl. lra.
      * rewrite polls_succ in P. simpl. lra.
      * lia.
    + exists w. cbn [poll]. unfold bind at 1. unfold ws.
      rewrite (ready_published _ _ _ _ _ _ _ it) by auto.
      repeat split; auto.
Qed.
End PollLoop.

(** ** The worker strategy: a whole call *)

Lemma bind_raised {S A B} (m : M S A) (k : A -> M S B) (s : S) (e : exn) :
  fst (m s) = Raised e -> fst (bind m k s) = Raised e.
Proof.
  unfold bind. destruct (m s) as [[a | e' | |] s']; simpl; congruence.
Qed.

Section WorkerCall.
Variables (function : pyfun) (seconds : pyval).
Variables (ety : pytype) (emsg : option string).
Variables (args : list pyval) (kwargs : kwargs) (w : world).

Let kw := dict_del "timeout" kwargs.
Let r := function (List.length (calls w)) args kw.

(** The deadline the call computes: the limit in force added to the
    clock when it is a number, the instant of construction when it is
    [None]. *)
Lemma new_mt_function_start (fuel : nat) (limit : pyval) (deadline : Q) :
  fst (dict_pop "timeout" seconds kwargs) = limit ->
  (exists b, limit = VNum b /\ deadline = b + clock w)
  \/ (limit = VNone /\ deadline = clock w) ->
  new_mt_function fuel function seconds ety emsg args kwargs w
  = match
      (poll fuel ;;; value)
        (worker_state function ety emsg limit deadline (clock w) r false,
         log_call args kw w)
    with
    | (res, (_, w2)) => (res, w2)
    end.
Proof.
  intros H D. unfold new_mt_function, __init__, __call__, dict_pop in *.
  simpl in H. cbn [_limit]. rewrite H.
  destruct D as [[b [-> ->]] | [-> ->]]; reflexivity.
Qed.

(** Worker strategy, time-out: the limit in force is a number other
    than zero and the result does not reach the queue before the
    deadline. *)
Lemma new_mt_function_times_out (b : Q) :
  fst (dict_pop "timeout" seconds kwargs) = VNum b ->
  truthy (VNum b) = true -> itimer w = None ->
  b < dur r \/ _target r = None ->
  exists n, forall fuel, (n <= fuel)%nat ->
    fst (new_mt_function fuel function seconds ety emsg args kwargs w)
    = Raised (configured_error ety emsg).
Proof.
  intros H L I U. destruct (polls_cover b) as [n N].
  exists (n + 2)%nat. intros fuel F.
  rewrite (new_mt_function_start fuel (VNum b) (b + clock w) H)
    by (left; exists b; auto).
  match goal with
  | |- fst (match ?m ?s with _ => _ end) = _ =>
      assert (fst (m s) = Raised (configured_error ety emsg)) as E
  end.
  { apply bind_raised.
    apply (poll_times_out function ety emsg (VNum b) (b + clock w)
             (clock w) r n false); auto.
    - right. destruct U as [U | U]; [left; lra | right; assumption].
    - simpl. lra. }
  destruct ((poll fuel ;;; value) _) as [res [self' w2]]. exact E.
Qed.

(** Worker strategy, in time: the item reaches the queue, and either no
    limit is in force or a poll interval is left before the deadline. *)
Lemma new_mt_function_in_time (limit : pyval) (it : item) :
  fst (dict_pop "timeout" seconds kwargs) = limit ->
  itimer w = None -> 0 <= dur r -> _target r = Some it ->
  limit = VNone
  \/ (exists b, limit = VNum b /\ (b == 0 \/ dur r + (1 # 100) <= b)) ->
  exists n, forall fuel, (n <= fuel)%nat ->
    fst (new_mt_function fuel function seconds ety emsg args kwargs w)
    = item_result it.
Proof.
  intros H I P T C. destruct (polls_cover (dur r)) as [n N].
  exists (n + 1)%nat. intros fuel F.
  set (deadline := match limit with VNum b => b + clock w | _ => clock w end).
  assert (truthy limit = false
          \/ clock w + dur r + (1 # 100) <= deadline) as C'.
  { destruct C as [-> | [b [-> [Z | B]]]].
    - left. reflexivity.
    - left. simpl. apply negb_false_iff, Qeq_bool_iff. assumption.
    - right. subst deadline. simpl. lra. }
  rewrite (new_mt_function_start fuel limit deadline H).
  2:{ destruct C as [-> | [b [-> _]]]; [right | left; exists b]; auto. }
  destruct (poll_publishes function ety emsg limit deadline (clock w) r it n
              (log_call args kw w) fuel I T C') as [w' [E [I' [P1 P2]]]].
  - simpl. lra.
  - simpl. lra.
  - assumption.
  - pose proof (value_published function ety emsg limit deadline (clock w)
                  r it w') as V.
    unfold bind at 1. rewrite E.
    destruct (value _) as [res [self' w2]]. simpl in *.
    rewrite V; auto.
    destruct C' as [C' | C']; [rewrite C'; reflexivity |].
    replace (Qltb deadline (clock w')) with false
      by (symmetry; apply Qltb_false; lra).
    apply andb_false_r.
Qed.
End WorkerCall.

(** ** Calls that run out of time, calls that do not *)

Example test_timeout_decorator_arg_signals :
  fst (_signaler 0 sleeps_two_seconds (VNum (1 # 10)) true TTimeoutError None
         [] [] fresh_world)
  = Raised (Exn TTimeoutError []).
Proof. reflexivity. Qed.

Example test_timeout_decorator_arg_worker :
  fst (_signaler 20 sleeps_two_seconds (VNum (1 # 10)) false TTimeoutError None
         [] [] fresh_world)
  = Raised (Exn TTimeoutError []).
Proof. vm_compute. reflexivity. Qed.

(** C1.  A call whose execution exceeds the bound in force (the [timeout]
    keyword of the call if given, else the decoration-time seconds) raises
    an instance of the configured exception type, under the signal
    strategy and under the worker strategy; the instance carries the
    configured message as its only argument when there is one and no
    argument otherwise. *)
Theorem timed_out_call_raises_configured_error :
  forall (function : pyfun) (seconds : pyval) (exception_type : pytype)
         (exception_message : option string) (args : list pyval)
         (kwargs : kwargs) (w : world) (b : Q),
    fst (dict_pop "timeout" seconds kwargs) = VNum b ->
    0 < b ->
    b < dur (function (List.length (calls w)) args
               (dict_del "timeout" kwargs)) ->
    (forall fuel,
        fst (_signaler fuel function seconds true exception_type
               exception_message args kwargs w)
        = Raised (configured_error exception_type exception_message))
    /\ (itimer w = None ->
        exists n, forall fuel, (n <= fuel)%nat ->
          fst (_signaler fuel function seconds false exception_type
                 exception_message args kwargs w)
          = Raised (configured_error exception_type exception_message))
    /\ configured_error exception_type None = Exn exception_type []
    /\ (forall m, configured_error exception_type (Some m)
                  = Exn exception_type [VStr m]).
Proof.
  intros function seconds ety emsg args kwargs w b H P X.
  split; [| split; [| split; [reflexivity | reflexivity]]].
  - intros fuel. unfold _signaler.
    rewrite (new_function_armed function seconds ety emsg args kwargs w b H P).
    cbv zeta.
    replace (Qle_bool b _) with true by (symmetry; apply Qle_bool_iff; lra).
    reflexivity.
  - intros I. unfold _signaler.
    apply (new_mt_function_times_out function seconds ety emsg args kwargs w b);
      auto.
    apply truthy_positive; assumption.
Qed.

Lemma timed_out_call_raises_configured_error_witness :
  fst (_signaler 0 sleeps_two_seconds (VNum (3 # 10)) true TRuntimeError
         (Some "Timeout exceeded."%string) []
         [("timeout"%string, VNum (1 # 10))] fresh_world)
  = Raised (Exn TRuntimeError [VStr "Timeout exceeded."])
  /\ exists n, forall fuel, (n <= fuel)%nat ->
       fst (_signaler fuel sleeps_two_seconds (VNum (3 # 10)) false
              TRuntimeError (Some "Timeout exceeded."%string) []
              [("timeout"%string, VNum (1 # 10))] fresh_world)
       = Raised (Exn TRuntimeError [VStr "Timeout exceeded."]).
Proof.
  assert (fst (dict_pop "timeout" (VNum (3 # 10))
                 [("timeout"%string, VNum (1 # 10))]) = VNum (1 # 10)) as H
      by reflexivity.
  assert (0 < 1 # 10) as P by reflexivity.
  assert (1 # 10 < dur (sleeps_two_seconds (List.length (calls fresh_world)) []
                          (dict_del "timeout"
                             [("timeout"%string, VNum (1 # 10))]))) as X
      by reflexivity.
  destruct (timed_out_call_raises_configured_error sleeps_two_seconds
              (VNum (3 # 10)) TRuntimeError (Some "Timeout exceeded."%string)
              [] [("timeout"%string, VNum (1 # 10))] fresh_world (1 # 10)
              H P X) as [S [W _]].
  split.
  - apply S.
  - apply W. reflexivity.
Defined.

(** C2, as stated, fails under the worker strategy: the function below
    finishes well before the bound of a tenth of a second, yet its return
    value cannot cross the queue and the call raises the timeout error
    instead of returning it. *)
Lemma worker_drops_unpicklable_counterexample :
  dur (returns_local_object 0%nat [] []) < 1 # 10
  /\ out (returns_local_object 0%nat [] []) = Return_ (VLocal 0)
  /\ exists n, forall fuel, (n <= fuel)%nat ->
       fst (_signaler fuel returns_local_object (VNum (1 # 10)) false
              TTimeoutError None [] [] fresh_world)
       = Raised (Exn TTimeoutError []).
Proof.
  split; [reflexivity |]. split; [reflexivity |].
  apply (new_mt_function_times_out returns_local_object (VNum (1 # 10))
           TTimeoutError None [] [] fresh_world (1 # 10));
    try reflexivity.
  right. reflexivity.
Qed.

(** The same under a poll that falls on the wrong side of the deadline:
    the result is there 12 ms after the start, the bound is 15 ms, the
    polls are at 0, 10 and 20 ms. *)
Example worker_poll_granularity :
  fst (_signaler 20 (fun _ _ _ => Run (12 # 1000) (Return_ (VNum 3)))
         (VNum (15 # 1000)) false TTimeoutError None [] [] fresh_world)
  = Raised (Exn TTimeoutError []).
Proof. vm_compute. reflexivity. Qed.

(** With no bound, a value that cannot cross the queue keeps the caller
    polling for ever. *)
Lemma poll_never_published function ety emsg limit deadline t0 r :
  truthy limit = false -> _target r = None ->
  forall fuel w, itimer w = None ->
    fst (poll fuel
           (worker_state function ety emsg limit deadline t0 r false, w))
    = Unfinished.
Proof.
  intros L T. induction fuel as [| fuel IH]; intros w I; [reflexivity |].
  cbn [poll]. unfold bind at 1.
  rewrite ready_unpublished by (auto; rewrite L; reflexivity).
  unfold bind at 1. rewrite (sleep_unarmed _ _ _ I).
  apply IH. exact I.
Qed.

(** C2 (amended).  Signal strategy: the call returns the wrapped
    function's return value unmodified when the bound in force is falsy
    (absent or zero) and no interval timer is pending at entry, or when the
    function finishes before the bound.  Worker strategy: the call returns
    the value unmodified when the value can be pickled, no interval timer
    is pending in the caller, and the bound in force is falsy or leaves at
    least one poll interval (0.01 s) after the function finishes; with a
    falsy bound the call then completes whatever its duration. *)
Theorem in_time_call_returns_value :
  forall (function : pyfun) (seconds : pyval) (exception_type : pytype)
         (exception_message : option string) (args : list pyval)
         (kwargs : kwargs) (w : world) (v : pyval),
    let r :=
      function (List.length (calls w)) args (dict_del "timeout" kwargs) in
    let bound := fst (dict_pop "timeout" seconds kwargs) in
    out r = Return_ v ->
    0 <= dur r ->
    (itimer w = None ->
     bound = VNone \/ (exists b, bound = VNum b /\ b == 0) ->
     forall fuel,
       fst (_signaler fuel function seconds true exception_type
              exception_message args kwargs w) = Returned v)
    /\ (forall b, bound = VNum b -> dur r < b ->
        forall fuel,
          fst (_signaler fuel function seconds true exception_type
                 exception_message args kwargs w) = Returned v)
    /\ (itimer w = None -> picklable v = true ->
        bound = VNone
        \/ (exists b, bound = VNum b /\ (b == 0 \/ dur r + (1 # 100) <= b)) ->
        exists n, forall fuel, (n <= fuel)%nat ->
          fst (_signaler fuel function seconds false exception_type
                 exception_message args kwargs w) = Returned v).
Proof.
  intros function seconds ety emsg args kwargs w v r bound O D.
  split; [| split].
  - intros I F fuel. unfold _signaler.
    rewrite new_function_unarmed.
    + rewrite (invoke_unarmed _ _ _ _ I). fold r. rewrite O. reflexivity.
    + fold bound. destruct F as [-> | [b [-> Z]]]; [reflexivity |].
      simpl. apply negb_false_iff, Qeq_bool_iff. assumption.
  - intros b B L fuel. unfold _signaler.
    rewrite (new_function_armed function seconds ety emsg args kwargs w b B)
      by lra.
    cbv zeta. fold r.
    replace (Qle_bool b (dur r)) with false
      by (symmetry; apply Qle_bool_false; assumption).
    rewrite O. reflexivity.
  - intros I P C. unfold _signaler.
    apply (new_mt_function_in_time function seconds ety emsg args kwargs w
             bound (Success v)); auto.
    fold r. unfold _target. rewrite O, P. reflexivity.
Qed.

Lemma in_time_call_returns_value_witness :
  fst (_signaler 0 adds_one_and_two (VNum (1 # 10)) true TTimeoutError None
         [VNum 1; VNum 2] [] fresh_world) = Returned (VNum 3)
  /\ fst (_signaler 0 adds_one_and_two VNone true TTimeoutError None
            [VNum 1; VNum 2] [] fresh_world) = Returned (VNum 3)
  /\ exists n, forall fuel, (n <= fuel)%nat ->
       fst (_signaler fuel adds_one_and_two (VNum (1 # 10)) false TTimeoutError
              None [VNum 1; VNum 2] [] fresh_world) = Returned (VNum 3).
Proof.
  assert (0 <= 0) as D by apply Qle_refl.
  split; [| split].
  - apply (proj1 (proj2 (in_time_call_returns_value adds_one_and_two
             (VNum (1 # 10)) TTimeoutError None [VNum 1; VNum 2] [] fresh_world
             (VNum 3) eq_refl D)) (1 # 10)); reflexivity.
  - apply (proj1 (in_time_call_returns_value adds_one_and_two VNone
             TTimeoutError None [VNum 1; VNum 2] [] fresh_world (VNum 3)
             eq_refl D)); [reflexivity | left; reflexivity].
  - apply (proj2 (proj2 (in_time_call_returns_value adds_one_and_two
             (VNum (1 # 10)) TTimeoutError None [VNum 1; VNum 2] [] fresh_world
             (VNum 3) eq_refl D))); [reflexivity | reflexivity |].
    right. exists (1 # 10). split; [reflexivity |]. right.
    vm_compute. discriminate.
Defined.

(** ** Handler and timer after a call under the signal strategy *)

(** When the decoration-time [seconds] is truthy, a call that arms the
    timer puts the previous handler back and disarms the timer, however it
    ends: return, timeout or an error of the function. *)
Lemma new_function_restores :
  forall function seconds ety emsg args kwargs w b,
    truthy seconds = true ->
    fst (dict_pop "timeout" seconds kwargs) = VNum b -> 0 < b ->
    let w' := snd (new_function function seconds ety emsg args kwargs w) in
    sigalrm w' = sigalrm w /\ itimer w' = None.
Proof.
  intros function seconds ety emsg args kwargs w b S H P.
  rewrite (new_function_armed function seconds ety emsg args kwargs w b H P).
  cbv zeta. unfold after_call. rewrite S.
  destruct (Qle_bool b _); split; reflexivity.
Qed.

(** When the decoration-time [seconds] is falsy, the early [return] skips
    the [finally] block: a call that armed the timer through its [timeout]
    keyword and returned in time leaves the closure [handler] installed and
    the timer running. *)
Lemma new_function_leaves_alarm :
  forall function seconds ety emsg args kwargs w b,
    truthy seconds = false ->
    fst (dict_pop "timeout" seconds kwargs) = VNum b -> 0 < b ->
    let r :=
      function (List.length (calls w)) args (dict_del "timeout" kwargs) in
    dur r < b ->
    let w' := snd (new_function function seconds ety emsg args kwargs w) in
    sigalrm w' = handler ety emsg /\ itimer w' = Some (b - dur r).
Proof.
  intros function seconds ety emsg args kwargs w b S H P r L.
  rewrite (new_function_armed function seconds ety emsg args kwargs w b H P).
  cbv zeta. unfold after_call. rewrite S. fold r.
  replace (Qle_bool b (dur r)) with false
    by (symmetry; apply Qle_bool_false; assumption).
  split; reflexivity.
Qed.

(** A decorator built without any time input wraps the function with the
    executor for [seconds = 0]. *)
Example timeout_without_time_input :
  exists decorator,
    timeout 0 0 None None None None None None true TTimeoutError None None None
    = inr decorator
    /\ decorator sleeps_briefly
       = _signaler 0 sleeps_briefly (VNum 0) true TTimeoutError None.
Proof. eexists. split; reflexivity. Qed.

(** C4 (the code at the failing input).  A function decorated without any
    time input ([seconds] is 0) and called with [timeout=0.1] arms the
    timer; it returns after 0.01 s, and then the closure [handler] is still
    installed in place of the previous handler and the timer is still
    running, with 0.09 s left. *)
Theorem override_without_bound_leaves_alarm :
  let call :=
    _signaler 0 sleeps_briefly (VNum 0) true TTimeoutError None []
      [("timeout"%string, VNum (1 # 10))] fresh_world in
  fst call = Returned VNone
  /\ sigalrm fresh_world = SIG_DFL
  /\ sigalrm (snd call) = PyHandler TTimeoutError None
  /\ exists left_, itimer (snd call) = Some left_ /\ left_ == 9 # 100.
Proof.
  cbv zeta. split; [reflexivity |]. split; [reflexivity |].
  split; [reflexivity |].
  eexists. split; [reflexivity | reflexivity].
Qed.

(** ** The [timeout] keyword of a call *)

Lemma dict_del_get (k : string) (d : kwargs) : dict_get k (dict_del k d) = None.
Proof.
  induction d as [| [k' v] d IH]; simpl; [reflexivity |].
  destruct (String.eqb k k') eqn:E; [assumption |].
  simpl. rewrite E. assumption.
Qed.

Lemma invoke_calls function args kw w :
  calls (snd (invoke function args kw w)) = calls w ++ [(args, kw)].
Proof.
  unfold invoke, bind, elapse. simpl.
  destruct (itimer w) as [t |];
    [destruct (Qle_bool t _); [destruct (sigalrm w) as [| | ty [m |]] |] |];
    simpl; try reflexivity; destruct (out _); reflexivity.
Qed.

Lemma ready_calls self w : calls (snd (snd (ready (self, w)))) = calls w.
Proof.
  unfold ready, bind, cancel. simpl.
  destruct (truthy (_limit self) && _); simpl; [| reflexivity].
  destruct (is_alive _ _); simpl; [reflexivity |].
  destruct (_exception_message self); reflexivity.
Qed.

Lemma sleep_calls d self w : calls (snd (snd (sleep d (self, w)))) = calls w.
Proof.
  unfold sleep, elapse.
  destruct (itimer w) as [t |];
    [destruct (Qle_bool t _); [destruct (sigalrm w) as [| | ty [m |]] |] |];
    reflexivity.
Qed.

Lemma poll_calls fuel :
  forall s, calls (snd (snd (poll fuel s))) = calls (snd s).
Proof.
  induction fuel as [| fuel IH]; intros [self w]; [reflexivity |].
  cbn [poll]. unfold bind at 1.
  pose proof (ready_calls self w) as R.
  destruct (ready (self, w)) as [[[] | e | |] [self1 w1]]; simpl in *;
    try assumption.
  unfold bind at 1.
  pose proof (sleep_calls (1 # 100) self1 w1) as S.
  destruct (sleep (1 # 100) (self1, w1)) as [[[] | e | |] [self2 w2]];
    simpl in *; try congruence.
  rewrite IH. simpl. congruence.
Qed.

Lemma value_calls s : calls (snd (snd (value s))) = calls (snd s).
Proof.
  destruct s as [self w]. unfold value. unfold bind at 1.
  pose proof (ready_calls self w) as R.
  destruct (ready (self, w)) as [[[] | e | |] [self1 w1]]; simpl in *;
    try assumption.
  unfold bind, queue_get.
  destruct (queue_items _ _ _) as [| [v | e] l]; simpl; assumption.
Qed.

(** Under both strategies the wrapped function receives the keyword
    arguments without [timeout]. *)
Lemma timeout_keyword_is_removed :
  forall fuel function seconds use_signals ety emsg args kwargs w b,
    fst (dict_pop "timeout" seconds kwargs) = VNum b -> 0 <= b ->
    calls (snd (_signaler fuel function seconds use_signals ety emsg args
                  kwargs w))
    = calls w ++ [(args, dict_del "timeout" kwargs)].
Proof.
  intros fuel function seconds use_signals ety emsg args kwargs w b H P.
  unfold _signaler. destruct use_signals.
  - destruct (Qeq_bool b 0) eqn:Z.
    + rewrite new_function_unarmed
        by (rewrite H; simpl; rewrite Z; reflexivity).
      apply invoke_calls.
    + apply Qeq_bool_false in Z.
      rewrite (new_function_armed function seconds ety emsg args kwargs w b H)
        by lra.
      cbv zeta. unfold after_call.
      destruct (Qle_bool b _); destruct (truthy seconds); reflexivity.
  - rewrite (new_mt_function_start function seconds ety emsg args kwargs w fuel
               (VNum b) (b + clock w) H) by (left; exists b; auto).
    set (s0 := (worker_state _ _ _ _ _ _ _ _, _)).
    unfold bind.
    pose proof (poll_calls fuel s0) as PL.
    destruct (poll fuel s0) as [[[] | e | |] [self1 x1]]; simpl in *;
      try assumption.
    pose proof (value_calls (self1, x1)) as VL.
    destruct (value (self1, x1)) as [res [self2 x2]]. simpl in *.
    congruence.
Qed.

(** C6 (the code at the failing input).  The function is decorated without
    any time input.  Its first call carries [timeout=0.1] and returns in
    time; its second call carries no [timeout], so no bound applies to it,
    yet the timer armed for the first call is still running and the second
    call is cut off with the timeout error, 0.1 s after the first one
    began.  (Both invocations received their keyword arguments without
    [timeout].) *)
Theorem override_outlives_its_call :
  let decorated :=
    _signaler 0 brief_then_long (VNum 0) true TTimeoutError None in
  let first := decorated [] [("timeout"%string, VNum (1 # 10))] fresh_world in
  let second := decorated [] [] (snd first) in
  fst first = Returned VNone
  /\ out (brief_then_long 1%nat [] []) = Return_ VNone
  /\ fst second = Raised (Exn TTimeoutError [])
  /\ clock (snd second) == 1 # 10
  /\ calls (snd second) = [([], []); ([], [])].
Proof.
  cbv zeta. repeat split; reflexivity.
Qed.

(** ** The recovery stage *)

Section Recovery.
Variables (function on_timeout : callable) (exception_type : pytype).
Variables (on_timeout_args : option (list pyval)).
Variables (on_timeout_kwargs : option kwargs).
Variables (args : list pyval) (kwargs : kwargs) (w : world).





End Recovery.



(** ** Retries *)







(** ** The scenarios of test_timeoutd.py *)

(** [time.sleep(0.2)] and [time.sleep(0.1)]. *)
Example test_timeout_kwargs_with_initial_timeout_none :
  forall use_signals,
    fst (_signaler 40 (fun _ _ _ => Run (2 # 10) (Return_ VNone)) (VNum 0)
           use_signals TTimeoutError None []
           [("timeout"%string, VNum (1 # 10))] fresh_world)
    = Raised (Exn TTimeoutError []).
Proof. intros [|]; vm_compute; reflexivity. Qed.

Example test_timeout_alternate_exception :
  forall use_signals,
    fst (_signaler 40 (fun _ _ _ => Run (2 # 10) (Return_ VNone))
           (VNum (3 # 10)) use_signals TStopIteration None []
           [("timeout"%string, VNum (1 # 10))] fresh_world)
    = Raised (Exn TStopIteration []).
Proof. intros [|]; vm_compute; reflexivity. Qed.

Example test_timeout_no_seconds :
  forall use_signals,
    fst (_signaler 40 (fun _ _ _ => Run (1 # 10) (Return_ VNone)) (VNum 0)
           use_signals TTimeoutError None [] [] fresh_world)
    = Returned VNone.
Proof. intros [|]; vm_compute; reflexivity. Qed.

Example test_timeout_ok :
  forall use_signals,
    fst (_signaler 40 (fun _ _ _ => Run (1 # 10) (Return_ VNone))
           (VNum (2 # 10)) use_signals TTimeoutError None [] [] fresh_world)
    = Returned VNone.
Proof. intros [|]; vm_compute; reflexivity. Qed.

Example test_timeout_custom_exception_with_message :
  fst (_signaler 0 sleeps_two_seconds (VNum (1 # 10)) true TRuntimeError
         (Some "Timeout exceeded."%string) [] [] fresh_world)
  = Raised (Exn TRuntimeError [VStr "Timeout exceeded."]).
Proof. reflexivity. Qed.

Example test_timeout_custom_on_timeout_with_args_and_kwargs :
  forall use_signals,
  exists decorator,
    timeout 40 0 None (Some (1 # 10)) None None (Some on_timeout_sum) None
      use_signals TTimeoutError None (Some [VNum 1])
      (Some [("j"%string, VNum 2)])
    = inr decorator
    /\ fst (decorator sleeps_two_seconds [] [] fresh_world)
       = Returned (VNum (1 + 2)).
Proof.
  intros [|]; eexists; split; try reflexivity; vm_compute; reflexivity.
Qed.

Example test_timeout_pickle_error :
  fst (_signaler 40 returns_local_object (VNum (1 # 10)) false TTimeoutError
         None [] [] fresh_world)
  = Raised (Exn TTimeoutError []).
Proof. vm_compute. reflexivity. Qed.

(** * Further properties of the code *)

(** ** What a call leaves behind *)

Lemma invoke_sigalrm function args kw w :
  sigalrm (snd (invoke function args kw w)) = sigalrm w.
Proof.
  unfold invoke, bind, elapse. simpl.
  destruct (itimer w) as [t |];
    [destruct (Qle_bool t _);
     [destruct (sigalrm w) as [| | ty [m |]] eqn:E |] |];
    simpl; try assumption; try reflexivity; destruct (out _); simpl;
    try assumption; reflexivity.
Qed.

(** X1.  Signal strategy, decoration-time [seconds] truthy: whatever the
    bound in force for the call (the configured one, or a [timeout]
    keyword that is [None] or a number that is not negative) and however
    the call ends (return, timeout, error of the function), the SIGALRM
    handler found at entry is the one installed at exit, and a call that
    armed the timer leaves it disarmed. *)
Theorem new_function_scoped_when_bound_configured :
  forall (function : pyfun) (seconds : pyval) (ety : pytype)
         (emsg : option string) (args : list pyval) (kwargs : kwargs)
         (w : world),
    truthy seconds = true ->
    let bound := fst (dict_pop "timeout" seconds kwargs) in
    bound = VNone \/ (exists b, bound = VNum b /\ 0 <= b) ->
    let w' := snd (new_function function seconds ety emsg args kwargs w) in
    sigalrm w' = sigalrm w /\ (truthy bound = true -> itimer w' = None).
Proof.
  intros function seconds ety emsg args kwargs w S bound B w'.
  subst w'. destruct (truthy bound) eqn:T.
  - destruct B as [B | [b [B P]]]; [rewrite B in T; discriminate |].
    assert (0 < b) as P'.
    { rewrite B in T. simpl in T. apply negb_true_iff in T.
      apply Qeq_bool_false in T. destruct (Qlt_le_dec 0 b); [assumption |].
      exfalso. apply T. lra. }
    rewrite (new_function_armed function seconds ety emsg args kwargs w b B P').
    cbv zeta. unfold after_call. rewrite S.
    destruct (Qle_bool b _); split; reflexivity.
  - rewrite (new_function_unarmed function seconds ety emsg args kwargs w T).
    split; [apply invoke_sigalrm | discriminate].
Qed.

Lemma new_function_scoped_when_bound_configured_witness :
  let w := World 5 SIG_IGN None [] in
  sigalrm (snd (new_function raises_value_error (VNum (1 # 10)) TTimeoutError
                  None [] [] w)) = SIG_IGN
  /\ itimer (snd (new_function sleeps_two_seconds (VNum (1 # 10)) TTimeoutError
                    None [] [("timeout"%string, VNum (1 # 2))] w)) = None.
Proof.
  cbv zeta. split.
  - apply (new_function_scoped_when_bound_configured raises_value_error
             (VNum (1 # 10)) TTimeoutError None [] []
             (World 5 SIG_IGN None []) eq_refl).
    right. exists (1 # 10). split; [reflexivity | discriminate].
  - apply (new_function_scoped_when_bound_configured sleeps_two_seconds
             (VNum (1 # 10)) TTimeoutError None []
             [("timeout"%string, VNum (1 # 2))]
             (World 5 SIG_IGN None []) eq_refl).
    + right. exists (1 # 2). split; [reflexivity | discriminate].
    + reflexivity.
Defined.

Lemma same_signals_refl w : same_signals w w.
Proof. split; auto. Qed.

Lemma same_signals_trans w1 w2 w3 :
  same_signals w1 w2 -> same_signals w2 w3 -> same_signals w1 w3.
Proof. intros [A B] [C D]. split; [congruence | auto]. Qed.

Lemma ready_world self w : snd (snd (ready (self, w))) = w.
Proof.
  unfold ready, bind, cancel. simpl.
  destruct (truthy (_limit self) && _); simpl; [| reflexivity].
  destruct (is_alive _ _); simpl; [reflexivity |].
  destruct (_exception_message self); reflexivity.
Qed.

Lemma sleep_signals d self w :
  same_signals w (snd (snd (sleep d (self, w)))).
Proof.
  unfold sleep, elapse, same_signals.
  destruct (itimer w) as [t |] eqn:I;
    [destruct (Qle_bool t _);
     [destruct (sigalrm w) as [| | ty [m |]] eqn:E |] |];
    simpl; (split; [congruence | intros; try discriminate; assumption]).
Qed.

Lemma poll_signals fuel :
  forall self w, same_signals w (snd (snd (poll fuel (self, w)))).
Proof.
  induction fuel as [| fuel IH]; intros self w; [apply same_signals_refl |].
  cbn [poll]. unfold bind at 1.
  pose proof (ready_world self w) as R.
  destruct (ready (self, w)) as [[[] | e | |] [self1 w1]]; simpl in R; subst w1;
    try apply same_signals_refl.
  unfold bind at 1.
  pose proof (sleep_signals (1 # 100) self1 w) as S.
  destruct (sleep (1 # 100) (self1, w)) as [[[] | e | |] [self2 w2]];
    simpl in S; try exact S.
  apply (same_signals_trans _ _ _ S). apply IH.
Qed.

Lemma value_world self w : snd (snd (value (self, w))) = w.
Proof.
  unfold value. unfold bind at 1.
  pose proof (ready_world self w) as R.
  destruct (ready (self, w)) as [[[] | e | |] [self1 w1]]; simpl in *;
    try assumption.
  unfold bind, queue_get.
  destruct (queue_items _ _ _) as [| [v | e] l]; simpl; assumption.
Qed.

Lemma poll_value_signals fuel self w :
  same_signals w (snd (snd ((poll fuel ;;; value) (self, w)))).
Proof.
  unfold bind.
  pose proof (poll_signals fuel self w) as P.
  destruct (poll fuel (self, w)) as [[[] | e | |] [self1 w1]]; simpl in P;
    try exact P.
  pose proof (value_world self1 w1) as V.
  destruct (value (self1, w1)) as [res [self2 w2]]. simpl in *. subst w2.
  exact P.
Qed.

Lemma poll_value_calls fuel self w :
  calls (snd (snd ((poll fuel ;;; value) (self, w)))) = calls w.
Proof.
  unfold bind.
  pose proof (poll_calls fuel (self, w)) as P.
  destruct (poll fuel (self, w)) as [[[] | e | |] [self1 w1]]; simpl in P;
    try exact P.
  pose proof (value_world self1 w1) as V.
  destruct (value (self1, w1)) as [res [self2 w2]]. simpl in *. subst w2.
  exact P.
Qed.

Lemma snd_of_call {A} (m : M self_world A) (s : self_world) :
  snd (let (r, s') := m s in let (_, w2) := s' in (r, w2)) = snd (snd (m s)).
Proof. destruct (m s) as [r [self' w2]]. reflexivity. Qed.

(** The world a worker-strategy call ends in is the one its poll loop and
    its reading of the value end in, started after the spawn; a limit that
    cannot be added to the clock ends the call right after the spawn. *)
Lemma new_mt_function_world fuel function seconds ety emsg args kwargs w :
  let wl := log_call args (dict_del "timeout" kwargs) w in
  snd (new_mt_function fuel function seconds ety emsg args kwargs w) = wl
  \/ exists self,
       snd (new_mt_function fuel function seconds ety emsg args kwargs w)
       = snd (snd ((poll fuel ;;; value) (self, wl))).
Proof.
  cbv zeta. unfold new_mt_function, __init__, __call__, dict_pop.
  cbn [_limit set_limit set_queue set_process].
  destruct (match dict_get "timeout" kwargs with
            | Some v => v
            | None => seconds
            end) as [| q | s | n]; cbn [is_None negb add_time].
  - right. rewrite snd_of_call.
    match goal with
    | |- context [(ret tt ;;; _) (?self, _)] => exists self
    end.
    reflexivity.
  - right. rewrite snd_of_call.
    match goal with
    | |- context [(_ ;;; poll fuel ;;; value) (?self, _)] =>
        exists (set_timeout (q + clock w) self)
    end.
    reflexivity.
  - left. reflexivity.
  - left. reflexivity.
Qed.

(** X2.  Worker strategy: a call never changes the SIGALRM handler of the
    calling process, whatever the bound, the arguments and the outcome, and
    when no interval timer is pending at entry none is pending at exit. *)
Theorem worker_call_leaves_signals_alone :
  forall (fuel : nat) (function : pyfun) (seconds : pyval) (ety : pytype)
         (emsg : option string) (args : list pyval) (kwargs : kwargs)
         (w : world),
    let w' := snd (_signaler fuel function seconds false ety emsg args kwargs w)
    in
    sigalrm w' = sigalrm w /\ (itimer w = None -> itimer w' = None).
Proof.
  intros fuel function seconds ety emsg args kwargs w. cbv zeta.
  unfold _signaler.
  destruct (new_mt_function_world fuel function seconds ety emsg args kwargs w)
    as [E | [self E]]; rewrite E.
  - split; auto.
  - apply (poll_value_signals fuel self
             (log_call args (dict_del "timeout" kwargs) w)).
Qed.

Lemma worker_call_leaves_signals_alone_witness :
  itimer (snd (_signaler 40 sleeps_two_seconds (VNum (1 # 10)) false
                 TTimeoutError None [] [] fresh_world)) = None.
Proof.
  apply (worker_call_leaves_signals_alone 40 sleeps_two_seconds (VNum (1 # 10))
           TTimeoutError None [] [] fresh_world).
  reflexivity.
Defined.

(** X3.  Each call of the decorated function invokes the wrapped function
    exactly once, with the positional arguments as given and the keyword
    arguments without [timeout], however the call ends: under the worker
    strategy always, under the signal strategy whenever the bound in force
    is [None] or a number that is not negative. *)
Theorem wrapped_function_called_once :
  forall (fuel : nat) (function : pyfun) (seconds : pyval) (ety : pytype)
         (emsg : option string) (args : list pyval) (kwargs : kwargs)
         (w : world),
    let bound := fst (dict_pop "timeout" seconds kwargs) in
    let logged := calls w ++ [(args, dict_del "timeout" kwargs)] in
    calls (snd (_signaler fuel function seconds false ety emsg args kwargs w))
    = logged
    /\ (bound = VNone \/ (exists b, bound = VNum b /\ 0 <= b) ->
        calls (snd (_signaler fuel function seconds true ety emsg args kwargs
                      w))
        = logged)
    /\ dict_get "timeout" (dict_del "timeout" kwargs) = None.
Proof.
  intros fuel function seconds ety emsg args kwargs w bound logged.
  subst logged. unfold _signaler. split; [| split].
  - destruct (new_mt_function_world fuel function seconds ety emsg args kwargs
                w) as [E | [self E]]; rewrite E.
    + reflexivity.
    + apply (poll_value_calls fuel self
               (log_call args (dict_del "timeout" kwargs) w)).
  - intros B. destruct (truthy bound) eqn:T.
    + destruct B as [B | [b [B P]]]; [rewrite B in T; discriminate |].
      assert (0 < b) as P'.
      { rewrite B in T. simpl in T. apply negb_true_iff in T.
        apply Qeq_bool_false in T. destruct (Qlt_le_dec 0 b); [assumption |].
        exfalso. apply T. lra. }
      rewrite (new_function_armed function seconds ety emsg args kwargs w b B
                 P').
      cbv zeta. unfold after_call.
      destruct (Qle_bool b _); destruct (truthy seconds); reflexivity.
    + rewrite (new_function_unarmed function seconds ety emsg args kwargs w T).
      apply invoke_calls.
  - apply dict_del_get.
Qed.

Lemma wrapped_function_called_once_witness :
  calls (snd (_signaler 0 sleeps_two_seconds (VNum (1 # 10)) true TTimeoutError
                None [VNum 1]
                [("timeout"%string, VNum (1 # 2)); ("j"%string, VNum 2)]
                fresh_world))
  = [([VNum 1], [("j"%string, VNum 2)])].
Proof.
  apply (proj1 (proj2 (wrapped_function_called_once 0 sleeps_two_seconds
           (VNum (1 # 10)) TTimeoutError None [VNum 1]
           [("timeout"%string, VNum (1 # 2)); ("j"%string, VNum 2)]
           fresh_world))).
  right. exists (1 # 2). split; [reflexivity | discriminate].
Defined.

(** ** Results that do not reach the queue, errors that do *)

Lemma bind_unfinished {S A B} (m : M S A) (k : A -> M S B) (s : S) :
  fst (m s) = Unfinished -> fst (bind m k s) = Unfinished.
Proof.
  unfold bind. destruct (m s) as [[a | e | |] s']; simpl; congruence.
Qed.

Lemma new_mt_function_never_returns function seconds ety emsg args kwargs w
  limit :
  fst (dict_pop "timeout" seconds kwargs) = limit ->
  limit = VNone \/ (exists b, limit = VNum b /\ b == 0) ->
  itimer w = None ->
  _target (function (List.length (calls w)) args (dict_del "timeout" kwargs))
  = None ->
  forall fuel,
    fst (new_mt_function fuel function seconds ety emsg args kwargs w)
    = Unfinished.
Proof.
  intros H F I T fuel.
  set (deadline := match limit with VNum b => b + clock w | _ => clock w end).
  rewrite (new_mt_function_start function seconds ety emsg args kwargs w fuel
             limit deadline H).
  2:{ destruct F as [-> | [b [-> _]]]; [right | left; exists b]; auto. }
  match goal with
  | |- fst (match ?m ?s with _ => _ end) = _ =>
      assert (fst (m s) = Unfinished) as E
  end.
  { apply bind_unfinished. apply poll_never_published; auto.
    destruct F as [-> | [b [-> Z]]]; [reflexivity |].
    simpl. apply negb_false_iff, Qeq_bool_iff. assumption. }
  destruct ((poll fuel ;;; value) _) as [res [self' w2]]. exact E.
Qed.

(** X4.  Worker strategy: when the outcome of the wrapped function does
    not reach the queue (a return value that cannot be pickled, an error
    that is not an [Exception], which the worker's [except Exception] does
    not catch, or an error whose arguments cannot be pickled), the caller
    sees a timeout if a bound is in force, however early the function
    ended, and polls for ever if none is. *)
Theorem unpublished_outcome_is_a_timeout :
  forall (function : pyfun) (seconds : pyval) (ety : pytype)
         (emsg : option string) (args : list pyval) (kwargs : kwargs)
         (w : world),
    let r :=
      function (List.length (calls w)) args (dict_del "timeout" kwargs) in
    let bound := fst (dict_pop "timeout" seconds kwargs) in
    itimer w = None ->
    (exists v, out r = Return_ v /\ picklable v = false)
    \/ (exists e, out r = Raise_ e
                  /\ (isinstance e TException = false
                      \/ forallb picklable (exn_args e) = false)) ->
    (forall b, bound = VNum b -> ~ b == 0 ->
       exists n, forall fuel, (n <= fuel)%nat ->
         fst (_signaler fuel function seconds false ety emsg args kwargs w)
         = Raised (configured_error ety emsg))
    /\ (bound = VNone \/ (exists b, bound = VNum b /\ b == 0) ->
        forall fuel,
          fst (_signaler fuel function seconds false ety emsg args kwargs w)
          = Unfinished).
Proof.
  intros function seconds ety emsg args kwargs w r bound I U.
  assert (_target r = None) as T.
  { unfold _target.
    destruct U as [[v [O P]] | [e [O [X | X]]]]; rewrite O.
    - rewrite P. reflexivity.
    - rewrite X. reflexivity.
    - rewrite X, andb_false_r. reflexivity. }
  unfold _signaler. split.
  - intros b B NZ.
    apply (new_mt_function_times_out function seconds ety emsg args kwargs w b);
      auto.
    simpl. apply negb_true_iff, Qeq_bool_false. assumption.
  - intros F.
    apply (new_mt_function_never_returns function seconds ety emsg args kwargs w
             bound); auto.
Qed.

Lemma unpublished_outcome_is_a_timeout_witness :
  (exists n, forall fuel, (n <= fuel)%nat ->
      fst (_signaler fuel raises_keyboard_interrupt (VNum (1 # 2)) false
             TTimeoutError None [] [] fresh_world)
      = Raised (Exn TTimeoutError []))
  /\ forall fuel,
       fst (_signaler fuel returns_local_object VNone false TTimeoutError None
              [] [] fresh_world)
       = Unfinished.
Proof.
  split.
  - apply (proj1 (unpublished_outcome_is_a_timeout raises_keyboard_interrupt
             (VNum (1 # 2)) TTimeoutError None [] [] fresh_world eq_refl
             (or_intror (ex_intro _ (Exn TKeyboardInterrupt [])
                           (conj eq_refl (or_introl eq_refl)))))
             (1 # 2) eq_refl).
    discriminate.
  - apply (proj2 (unpublished_outcome_is_a_timeout returns_local_object VNone
             TTimeoutError None [] [] fresh_world eq_refl
             (or_introl (ex_intro _ (VLocal 0) (conj eq_refl eq_refl))))).
    left. reflexivity.
Defined.

(** X5.  An error the wrapped function raises in time reaches the caller
    unchanged, whether or not it is of the configured kind: under the
    signal strategy when the function ends before the bound, or when no
    bound is in force and no timer pending; under the worker strategy when
    the error is an [Exception] that can be pickled and the bound is falsy
    or leaves a poll interval after the function ends. *)
Theorem function_error_propagates :
  forall (function : pyfun) (seconds : pyval) (ety : pytype)
         (emsg : option string) (args : list pyval) (kwargs : kwargs)
         (w : world) (e : exn),
    let r :=
      function (List.length (calls w)) args (dict_del "timeout" kwargs) in
    let bound := fst (dict_pop "timeout" seconds kwargs) in
    out r = Raise_ e ->
    0 <= dur r ->
    (forall b, bound = VNum b -> dur r < b ->
       forall fuel,
         fst (_signaler fuel function seconds true ety emsg args kwargs w)
         = Raised e)
    /\ (itimer w = None ->
        bound = VNone \/ (exists b, bound = VNum b /\ b == 0) ->
        forall fuel,
          fst (_signaler fuel function seconds true ety emsg args kwargs w)
          = Raised e)
    /\ (itimer w = None ->
        isinstance e TException = true ->
        forallb picklable (exn_args e) = true ->
        bound = VNone
        \/ (exists b, bound = VNum b /\ (b == 0 \/ dur r + (1 # 100) <= b)) ->
        exists n, forall fuel, (n <= fuel)%nat ->
          fst (_signaler fuel function seconds false ety emsg args kwargs w)
          = Raised e).
Proof.
  intros function seconds ety emsg args kwargs w e r bound O D.
  unfold _signaler. split; [| split].
  - intros b B L fuel.
    rewrite (new_function_armed function seconds ety emsg args kwargs w b B)
      by lra.
    cbv zeta. fold r.
    replace (Qle_bool b (dur r)) with false
      by (symmetry; apply Qle_bool_false; assumption).
    rewrite O. reflexivity.
  - intros I F fuel. rewrite new_function_unarmed.
    + rewrite (invoke_unarmed _ _ _ _ I). fold r. rewrite O. reflexivity.
    + fold bound. destruct F as [-> | [b [-> Z]]]; [reflexivity |].
      simpl. apply negb_false_iff, Qeq_bool_iff. assumption.
  - intros I X K C.
    apply (new_mt_function_in_time function seconds ety emsg args kwargs w
             bound (Failure e)); auto.
    fold r. unfold _target. rewrite O, X, K. reflexivity.
Qed.

(** A function that raises the very error kind the decorator is configured
    with, at once. *)
Lemma function_error_propagates_witness :
  fst (_signaler 0 raises_value_error (VNum (1 # 10)) true TValueError
         (Some "late"%string) [] [] fresh_world)
  = Raised (Exn TValueError [VStr "boom"])
  /\ exists n, forall fuel, (n <= fuel)%nat ->
       fst (_signaler fuel raises_value_error (VNum (1 # 10)) false TValueError
              (Some "late"%string) [] [] fresh_world)
       = Raised (Exn TValueError [VStr "boom"]).
Proof.
  assert (0 <= 0) as D by apply Qle_refl.
  split.
  - apply (proj1 (function_error_propagates raises_value_error (VNum (1 # 10))
             TValueError (Some "late"%string) [] [] fresh_world
             (Exn TValueError [VStr "boom"]) eq_refl D) (1 # 10));
      reflexivity.
  - apply (proj2 (proj2 (function_error_propagates raises_value_error
             (VNum (1 # 10)) TValueError (Some "late"%string) [] [] fresh_world
             (Exn TValueError [VStr "boom"]) eq_refl D)));
      try reflexivity.
    right. exists (1 # 10). split; [reflexivity |]. right.
    vm_compute. discriminate.
Defined.

(** ** The poll loop, seen from the instance *)

Lemma queue_items_terminated q p now :
  queue_items q (terminate p) now = [].
Proof.
  unfold queue_items, terminate. simpl.
  destruct (taken q); [reflexivity |].
  destruct (job p) as [[t0 r] |]; reflexivity.
Qed.

Lemma queue_items_short q p now :
  queue_items q p now = []
  \/ exists it, queue_items q p now = [it].
Proof.
  unfold queue_items. destruct (taken q); [left; reflexivity |].
  destruct (job p) as [[t0 r] |]; [| left; reflexivity].
  destruct (negb (terminated p) && _); [| left; reflexivity].
  destruct (_target r) as [it |]; [right; exists it |left]; reflexivity.
Qed.

(** The three ways [ready] can go, on any instance. *)
Lemma ready_cases (self : _Timeout) (w : world) :
  (truthy (_limit self) && Qltb (_timeout self) (clock w) = false
   /\ ready (self, w)
      = (Returned
           (let items := queue_items (_queue self) (_process self) (clock w) in
            full (_queue self) items && negb (empty items)), (self, w)))
  \/ (is_alive (_process self) (clock w) = true
      /\ ready (self, w)
         = (Returned false, (set_process (terminate (_process self)) self, w)))
  \/ (is_alive (_process self) (clock w) = false
      /\ ready (self, w)
         = (Raised (configured_error (_exception_type self)
                      (_exception_message self)), (self, w))).
Proof.
  unfold ready, bind.
  destruct (truthy (_limit self) && Qltb (_timeout self) (clock w)) eqn:C.
  - right. unfold cancel.
    destruct (is_alive (_process self) (clock w)) eqn:A.
    + left. split; [reflexivity |]. cbn [set_process _queue _process].
      rewrite queue_items_terminated. rewrite andb_false_r. reflexivity.
    + right. split; [reflexivity |]. rewrite _raise_exception_spec.
      reflexivity.
  - left. split; reflexivity.
Qed.

(** X6.  On any instance, in a caller with no interval timer pending: when
    the poll loop ends with an error, the error is the configured one and
    the worker is not alive at that moment; the loop never raises while
    the worker it watches is still running. *)
Theorem poll_error_means_worker_not_alive :
  forall (fuel : nat) (self : _Timeout) (w : world) (e : exn)
         (self' : _Timeout) (w' : world),
    itimer w = None ->
    poll fuel (self, w) = (Raised e, (self', w')) ->
    is_alive (_process self') (clock w') = false
    /\ e = configured_error (_exception_type self) (_exception_message self).
Proof.
  induction fuel as [| fuel IH]; intros self w e self' w' I H;
    [discriminate H |].
  cbn [poll] in H. unfold bind at 1 in H.
  destruct (ready_cases self w) as [[_ R] | [[A R] | [A R]]]; rewrite R in H.
  - destruct (full _ _ && _); [discriminate H |].
    unfold bind at 1 in H. rewrite (sleep_unarmed _ _ _ I) in H.
    eapply IH; [| exact H]. exact I.
  - unfold bind at 1 in H. rewrite (sleep_unarmed _ _ _ I) in H.
    destruct (IH _ (set_clock (clock w + (1 # 100)) w) _ _ _ I H) as [X Y].
    split; [exact X | exact Y].
  - injection H as <- <- <-. auto.
Qed.

Lemma poll_error_means_worker_not_alive_witness :
  let self :=
    worker_state sleeps_two_seconds TTimeoutError None (VNum (1 # 10))
      (1 # 10) 0 (Run 2 (Return_ VNone)) false in
  exists self' w',
    poll 40 (self, fresh_world) = (Raised (Exn TTimeoutError []), (self', w'))
    /\ is_alive (_process self') (clock w') = false.
Proof.
  cbv zeta.
  assert (exists self' w',
             poll 40
               (worker_state sleeps_two_seconds TTimeoutError None
                  (VNum (1 # 10)) (1 # 10) 0 (Run 2 (Return_ VNone)) false,
                fresh_world)
             = (Raised (Exn TTimeoutError []), (self', w')))
    as [self' [w' E]].
  { eexists. eexists. vm_compute. reflexivity. }
  exists self', w'. split; [exact E |].
  apply (poll_error_means_worker_not_alive 40 _ fresh_world _ self' w' eq_refl
           E).
Defined.

(** X7.  On any instance: [ready] is true only when nothing had to be
    cancelled and the one item is on the queue; it then leaves the instance
    and the process as they were, and [value] delivers that item (its load
    returned or raised), never [None] in place of it. *)
Theorem ready_true_delivers :
  forall (self : _Timeout) (w : world) (self' : _Timeout) (w' : world),
    ready (self, w) = (Returned true, (self', w')) ->
    self' = self /\ w' = w
    /\ truthy (_limit self) && Qltb (_timeout self) (clock w) = false
    /\ exists it,
         queue_items (_queue self) (_process self) (clock w) = [it]
         /\ fst (value (self, w)) = item_result it.
Proof.
  intros self w self' w' H.
  destruct (ready_cases self w) as [[C R] | [[A R] | [A R]]];
    rewrite R in H; try discriminate H.
  injection H as F <- <-. cbv zeta in F.
  split; [reflexivity |]. split; [reflexivity |]. split; [assumption |].
  destruct (queue_items_short (_queue self) (_process self) (clock w))
    as [Q | [it Q]].
  - rewrite Q in F. rewrite andb_false_r in F. discriminate F.
  - exists it. split; [assumption |].
    unfold value. unfold bind at 1. rewrite R. cbv zeta.
    rewrite F. unfold bind, queue_get. rewrite Q.
    destruct it; reflexivity.
Qed.

Lemma ready_true_delivers_witness :
  let self :=
    worker_state adds_one_and_two TTimeoutError None (VNum (1 # 10))
      (1 # 10) 0 (Run 0 (Return_ (VNum 3))) false in
  fst (value (self, fresh_world)) = Returned (VNum 3).
Proof.
  cbv zeta.
  destruct (ready_true_delivers
              (worker_state adds_one_and_two TTimeoutError None (VNum (1 # 10))
                 (1 # 10) 0 (Run 0 (Return_ (VNum 3))) false)
              fresh_world _ _ eq_refl) as [_ [_ [_ [it [Q V]]]]].
  rewrite V. injection Q as <-. reflexivity.
Defined.

(** X8.  The item can be read once: after [value] has delivered it the
    queue is empty, and a second [value] at the same instant returns
    [None]. *)
Theorem value_reads_once :
  forall (self : _Timeout) (w : world),
    ready (self, w) = (Returned true, (self, w)) ->
    exists it self2,
      value (self, w) = (item_result it, (self2, w))
      /\ queue_items (_queue self2) (_process self2) (clock w) = []
      /\ value (self2, w) = (Returned VNone, (self2, w)).
Proof.
  intros self w H.
  destruct (ready_cases self w) as [[C R] | [[A R] | [A R]]];
    rewrite R in H; try discriminate H.
  injection H as F. cbv zeta in F.
  destruct (queue_items_short (_queue self) (_process self) (clock w))
    as [Q | [it Q]].
  - rewrite Q in F. rewrite andb_false_r in F. discriminate F.
  - exists it.
    exists (set_queue {| maxsize := maxsize (_queue self); taken := true |}
              self).
    split; [| split].
    + unfold value. unfold bind at 1. rewrite R. cbv zeta.
      rewrite F. unfold bind, queue_get. rewrite Q.
      destruct it; reflexivity.
    + reflexivity.
    + unfold value, ready, bind.
      cbn [set_queue _limit _timeout _queue _process].
      rewrite C. unfold queue_items. cbn [taken empty negb].
      rewrite andb_false_r. reflexivity.
Qed.

Lemma value_reads_once_witness :
  let self :=
    worker_state adds_one_and_two TTimeoutError None (VNum (1 # 10))
      (1 # 10) 0 (Run 0 (Return_ (VNum 3))) false in
  exists it self2,
    value (self, fresh_world) = (item_result it, (self2, fresh_world))
    /\ queue_items (_queue self2) (_process self2) (clock fresh_world) = []
    /\ value (self2, fresh_world) = (Returned VNone, (self2, fresh_world)).
Proof.
  cbv zeta.
  apply (value_reads_once
           (worker_state adds_one_and_two TTimeoutError None (VNum (1 # 10))
              (1 # 10) 0 (Run 0 (Return_ (VNum 3))) false)
           fresh_world).
  reflexivity.
Defined.

(** ** When the worker strategy raises its timeout *)

Lemma polls_nonneg (n : nat) : 0 <= polls n.
Proof.
  unfold polls.
  assert (inject_Z 0 <= inject_Z (Z.of_nat n)) as H
      by (rewrite <- Zle_Qle; lia).
  change (inject_Z 0) with 0 in H. nra.
Qed.

Section TimeoutInstant.
Variables (function : pyfun) (ety : pytype) (emsg : option string).
Variables (limit : pyval) (deadline t0 : Q) (r : run).

Let ws := worker_state function ety emsg limit deadline t0 r.

Lemma poll_after_deadline_at (tm : bool) (w : world) (fuel : nat) :
  truthy limit = true -> itimer w = None -> deadline < clock w ->
  (2 <= fuel)%nat ->
  exists self' w',
    poll fuel (ws tm, w) = (Raised (configured_error ety emsg), (self', w'))
    /\ clock w <= clock w' /\ clock w' <= clock w + (1 # 100).
Proof.
  intros L I D F.
  destruct fuel as [| [| fuel]]; [lia | lia |].
  destruct tm.
  - exists (ws true), w. cbn [poll]. unfold bind at 1.
    unfold ws. rewrite ready_cancel_dead; auto.
    split; [reflexivity | lra].
  - destruct (Qlt_le_dec (clock w) (t0 + dur r)) as [A | A].
    + exists (ws true), (set_clock (clock w + (1 # 100)) w).
      cbn [poll]. unfold bind at 1.
      unfold ws. rewrite ready_cancel_alive by assumption.
      unfold bind at 1. rewrite (sleep_unarmed _ _ _ I).
      unfold bind at 1. rewrite ready_cancel_dead; auto.
      * split; [reflexivity |]. simpl. lra.
      * simpl. lra.
    + exists (ws false), w. cbn [poll]. unfold bind at 1.
      unfold ws. rewrite ready_cancel_dead; auto.
      split; [reflexivity | lra].
Qed.

Lemma poll_times_out_at (n : nat) :
  forall (tm : bool) (w : world) (fuel : nat),
    truthy limit = true -> itimer w = None ->
    tm = true \/ deadline < t0 + dur r \/ _target r = None ->
    clock w <= deadline + (1 # 100) ->
    deadline < clock w + polls n ->
    (n + 2 <= fuel)%nat ->
    exists self' w',
      poll fuel (ws tm, w) = (Raised (configured_error ety emsg), (self', w'))
      /\ deadline < clock w' /\ clock w' <= deadline + (2 # 100).
Proof.
  induction n as [| n IH]; intros tm w fuel L I U B D F.
  - assert (polls 0 == 0) as Z0 by reflexivity.
    destruct (poll_after_deadline_at tm w fuel L I) as [s' [w' [E [C1 C2]]]];
      [lra | lia |].
    exists s', w'. split; [assumption |]. lra.
  - destruct (Qlt_le_dec deadline (clock w)) as [P | P].
    + destruct (poll_after_deadline_at tm w fuel L I P)
        as [s' [w' [E [C1 C2]]]];
        [lia |].
      exists s', w'. split; [assumption |]. lra.
    + destruct fuel as [| fuel]; [lia |].
      destruct (IH tm (set_clock (clock w + (1 # 100)) w) fuel L I U)
        as [s' [w' [E C]]].
      * simpl. lra.
      * rewrite polls_succ in D. simpl. lra.
      * lia.
      * exists s', w'. split; [| assumption].
        cbn [poll]. unfold bind at 1.
        unfold ws. rewrite ready_unpublished.
        -- unfold bind at 1. rewrite (sleep_unarmed _ _ _ I). exact E.
        -- apply Qltb_false in P. rewrite P. apply andb_false_r.
        -- destruct U as [U | [U | U]]; auto.
           right. left. lra.
Qed.

(** A result that is there only after the last poll that precedes the
    deadline is lost to the timeout. *)
Lemma poll_misses_late_result (m : nat) :
  forall (w : world) (fuel : nat),
    truthy limit = true -> itimer w = None ->
    clock w + polls m < t0 + dur r ->
    deadline < clock w + polls (S m) ->
    (m + 3 <= fuel)%nat ->
    fst (poll fuel (ws false, w)) = Raised (configured_error ety emsg).
Proof.
  induction m as [| m IH]; intros w fuel L I A D F.
  - assert (polls 0 == 0) as Z0 by reflexivity.
    rewrite polls_succ in D.
    destruct (Qlt_le_dec deadline (clock w)) as [P | P].
    + apply poll_after_deadline; auto. lia.
    + destruct fuel as [| fuel]; [lia |].
      cbn [poll]. unfold bind at 1.
      unfold ws. rewrite ready_unpublished.
      * unfold bind at 1. rewrite (sleep_unarmed _ _ _ I).
        apply poll_after_deadline; auto; [simpl; lra | lia].
      * apply Qltb_false in P. rewrite P. apply andb_false_r.
      * right. left. lra.
  - pose proof (polls_nonneg m) as N.
    destruct (Qlt_le_dec deadline (clock w)) as [P | P].
    + apply poll_after_deadline; auto. lia.
    + destruct fuel as [| fuel]; [lia |].
      cbn [poll]. unfold bind at 1.
      unfold ws. rewrite ready_unpublished.
      * unfold bind at 1. rewrite (sleep_unarmed _ _ _ I).
        apply IH; auto.
        -- rewrite polls_succ in A. simpl. lra.
        -- rewrite (polls_succ (S m)) in D. simpl. lra.
        -- lia.
      * apply Qltb_false in P. rewrite P. apply andb_false_r.
      * right. left. rewrite polls_succ in A. lra.
Qed.
End TimeoutInstant.

(** X9.  Worker strategy, positive bound [b], no timer pending in the
    caller: a call whose result does not reach the queue before the
    deadline raises the configured error at an instant later than the
    deadline and at most two poll intervals (0.02 s) after it. *)
Theorem worker_timeout_within_two_polls :
  forall (function : pyfun) (seconds : pyval) (ety : pytype)
         (emsg : option string) (args : list pyval) (kwargs : kwargs)
         (w : world) (b : Q),
    let r :=
      function (List.length (calls w)) args (dict_del "timeout" kwargs) in
    fst (dict_pop "timeout" seconds kwargs) = VNum b ->
    0 < b -> itimer w = None ->
    b < dur r \/ _target r = None ->
    exists n, forall fuel, (n <= fuel)%nat ->
      exists w',
        _signaler fuel function seconds false ety emsg args kwargs w
        = (Raised (configured_error ety emsg), w')
        /\ clock w + b < clock w'
        /\ clock w' <= clock w + b + (2 # 100).
Proof.
  intros function seconds ety emsg args kwargs w b r H P I U.
  destruct (polls_cover b) as [n N].
  exists (n + 2)%nat. intros fuel F. unfold _signaler.
  rewrite (new_mt_function_start function seconds ety emsg args kwargs w fuel
             (VNum b) (b + clock w) H) by (left; exists b; auto).
  destruct (poll_times_out_at function ety emsg (VNum b) (b + clock w)
              (clock w) r n false
              (log_call args (dict_del "timeout" kwargs) w) fuel)
    as [s' [w' [E [C1 C2]]]]; auto.
  - apply truthy_positive. assumption.
  - right. destruct U as [U | U]; [left; fold r; lra | right; assumption].
  - simpl. lra.
  - simpl. lra.
  - exists w'. unfold bind at 1. fold r. rewrite E.
    split; [reflexivity |]. simpl in *. lra.
Qed.

Lemma worker_timeout_within_two_polls_witness :
  exists n, forall fuel, (n <= fuel)%nat ->
    exists w',
      _signaler fuel sleeps_two_seconds (VNum (1 # 10)) false TTimeoutError None
        [] [] fresh_world
      = (Raised (Exn TTimeoutError []), w')
      /\ clock fresh_world + (1 # 10) < clock w'
      /\ clock w' <= clock fresh_world + (1 # 10) + (2 # 100).
Proof.
  apply (worker_timeout_within_two_polls sleeps_two_seconds (VNum (1 # 10))
           TTimeoutError None [] [] fresh_world (1 # 10));
    try reflexivity.
  left. reflexivity.
Defined.

(** X10.  Worker strategy, positive bound [b], no timer pending in the
    caller: if no poll falls between the instant the function ends and the
    deadline (the function is still running at the k-th poll and the
    deadline precedes the next one), the call raises the configured error,
    also when the function ended before the bound. *)
Theorem worker_misses_result_between_polls :
  forall (function : pyfun) (seconds : pyval) (ety : pytype)
         (emsg : option string) (args : list pyval) (kwargs : kwargs)
         (w : world) (b : Q) (k : nat),
    let r :=
      function (List.length (calls w)) args (dict_del "timeout" kwargs) in
    fst (dict_pop "timeout" seconds kwargs) = VNum b ->
    0 < b -> itimer w = None ->
    polls k < dur r -> b < polls (S k) ->
    exists n, forall fuel, (n <= fuel)%nat ->
      fst (_signaler fuel function seconds false ety emsg args kwargs w)
      = Raised (configured_error ety emsg).
Proof.
  intros function seconds ety emsg args kwargs w b k r H P I A D.
  exists (k + 3)%nat. intros fuel F. unfold _signaler.
  rewrite (new_mt_function_start function seconds ety emsg args kwargs w fuel
             (VNum b) (b + clock w) H) by (left; exists b; auto).
  match goal with
  | |- fst (match ?m ?s with _ => _ end) = _ =>
      assert (fst (m s) = Raised (configured_error ety emsg)) as E
  end.
  { apply bind_raised.
    apply (poll_misses_late_result function ety emsg (VNum b) (b + clock w)
             (clock w) r k); auto.
    - apply truthy_positive. assumption.
    - simpl. fold r. lra.
    - simpl. lra. }
  destruct ((poll fuel ;;; value) _) as [res [self' w2]]. exact E.
Qed.

Lemma worker_misses_result_between_polls_witness :
  dur (returns_after_12ms 0%nat [] []) < 15 # 1000
  /\ exists n, forall fuel, (n <= fuel)%nat ->
       fst (_signaler fuel returns_after_12ms (VNum (15 # 1000)) false
              TTimeoutError None [] [] fresh_world)
       = Raised (Exn TTimeoutError []).
Proof.
  split; [reflexivity |].
  apply (worker_misses_result_between_polls returns_after_12ms
           (VNum (15 # 1000)) TTimeoutError None [] [] fresh_world (15 # 1000)
           1%nat); reflexivity.
Defined.

(** ** The fallback after a timeout *)

Lemma pytype_eqb_refl (t : pytype) : pytype_eqb t t = true.
Proof.
  induction t; simpl; try reflexivity.
  rewrite String.eqb_refl. assumption.
Qed.

Lemma issubclass_refl (t : pytype) : issubclass t t = true.
Proof.
  unfold issubclass. destruct t; try reflexivity.
  cbn [mro existsb]. rewrite pytype_eqb_refl. reflexivity.
Qed.

Lemma isinstance_configured_error (ety : pytype) (emsg : option string) :
  isinstance (configured_error ety emsg) ety = true.
Proof. destruct emsg; apply issubclass_refl. Qed.

(** X11.  Signal strategy with a truthy decoration-time [seconds]: when
    the call times out, [_exception_handler] runs the fallback without
    arguments, after the previous SIGALRM handler has been put back and the
    timer disarmed; so a fallback that is itself a slow function is not cut
    off, whatever its duration, and its outcome is the outcome of the
    call. *)
Theorem fallback_runs_after_restore :
  forall (function on_timeout : pyfun) (seconds : pyval) (ety : pytype)
         (emsg : option string) (args : list pyval) (kwargs : kwargs)
         (w : world) (b : Q),
    let kw := dict_del "timeout" kwargs in
    let r := function (List.length (calls w)) args kw in
    let r' := on_timeout (S (List.length (calls w))) [] [] in
    let call :=
      _exception_handler (new_function function seconds ety emsg)
        (invoke on_timeout) ety args kwargs w in
    truthy seconds = true ->
    fst (dict_pop "timeout" seconds kwargs) = VNum b ->
    0 < b -> b <= dur r ->
    fst call = ending_result (out r')
    /\ sigalrm (snd call) = sigalrm w
    /\ itimer (snd call) = None
    /\ clock (snd call) == clock w + b + dur r'
    /\ calls (snd call) = calls w ++ [(args, kw); ([], [])].
Proof.
  intros function on_timeout seconds ety emsg args kwargs w b kw r r' call ST
    H P X.
  subst call. unfold _exception_handler, try_except.
  rewrite (new_function_armed function seconds ety emsg args kwargs w b H P).
  cbv zeta. fold kw. fold r.
  replace (Qle_bool b (dur r)) with true by (symmetry; apply Qle_bool_iff; lra).
  rewrite isinstance_configured_error.
  unfold after_call. rewrite ST.
  rewrite invoke_unarmed by reflexivity.
  cbn [calls log_call set_clock set_itimer set_sigalrm clock sigalrm itimer
         fst snd].
  rewrite length_app. cbn [List.length].
  replace (List.length (calls w) + 1)%nat with (S (List.length (calls w)))
    by lia.
  fold r'. split; [reflexivity |]. split; [reflexivity |].
  split; [reflexivity |]. split; [reflexivity |].
  rewrite <- app_assoc. reflexivity.
Qed.

Lemma fallback_runs_after_restore_witness :
  fst (_exception_handler
         (new_function sleeps_briefly (VNum (1 # 1000)) TTimeoutError None)
         (invoke sleeps_two_seconds) TTimeoutError [] [] fresh_world)
  = Returned VNone.
Proof.
  apply (fallback_runs_after_restore sleeps_briefly sleeps_two_seconds
           (VNum (1 # 1000)) TTimeoutError None [] [] fresh_world (1 # 1000));
    try reflexivity.
  discriminate.
Defined.

(** ** A [timeout] keyword that is not a number *)



(** ** The decorator of timeoutd.py *)

(** X13.  The decorator that timeoutd.py defines itself validates the
    exception type like the one of timeout.py.  With [use_signals] it
    wraps the function exactly as [_signaler] of wrappers.py does.  Without
    it, every call of the decorated function raises [TypeError] in
    [_Timeout]'s constructor, which is called without the [on_timeout]
    argument its parameter list requires: the wrapped function is never
    called, no worker is started and the calling process is left as it
    was. *)
Theorem timeoutd_worker_call_fails_in_constructor :
  forall (fuel : nat) (seconds : pyval) (ety : pytype) (emsg : option string),
    (issubclass ety TException = false ->
     forall use_signals,
       Timeoutd.timeout fuel seconds use_signals ety emsg
       = inl exception_type_error)
    /\ (issubclass ety TException = true ->
        forall use_signals,
        exists decorator,
          Timeoutd.timeout fuel seconds use_signals ety emsg = inr decorator
          /\ forall function args kwargs w,
               (use_signals = true ->
                decorator function args kwargs w
                = _signaler fuel function seconds true ety emsg args kwargs w)
               /\ (use_signals = false ->
                   exists e,
                     decorator function args kwargs w = (Raised e, w)
                     /\ exn_type e = TTypeError)).
Proof.
  intros fuel seconds ety emsg. unfold Timeoutd.timeout. split.
  - intros V use_signals. rewrite V. reflexivity.
  - intros V use_signals. rewrite V. eexists. split; [reflexivity |].
    intros function args kwargs w. split; intros ->.
    + reflexivity.
    + eexists. split; reflexivity.
Qed.

Lemma timeoutd_worker_call_fails_in_constructor_witness :
  exists decorator,
    Timeoutd.timeout 40 (VNum (1 # 10)) false TTimeoutError None = inr decorator
    /\ exists e,
         decorator adds_one_and_two [VNum 1; VNum 2] [] fresh_world
         = (Raised e, fresh_world)
         /\ exn_type e = TTypeError.
Proof.
  destruct (proj2 (timeoutd_worker_call_fails_in_constructor 40 (VNum (1 # 10))
                     TTimeoutError None) eq_refl false) as [decorator [E B]].
  exists decorator. split; [exact E |].
  apply (proj2 (B adds_one_and_two [VNum 1; VNum 2] [] fresh_world)).
  reflexivity.
Defined.
